(** * Indicator service: lag alignment, sanitisation and metric extraction

    A shallow embedding of [indicator-service/app.py].  The service is a
    thin layer over three numeric libraries (NumPy/pandas, TA-Lib and
    quantstats); what the repository itself owns is

    - the sanitiser [_nan_to_none] and the cleaner [_clean_numeric_list],
    - the period resolver [_resolve_period_settings],
    - the returns normaliser at the head of [quantstats_metrics] together
      with [_equity_to_returns],
    - the per-metric [capture] wrapper of the metrics battery,
    - the close-only branch of [indicator_router], including the two
      hand-written, lagged indicators CUMULATIVE_RETURN and VOLATILITY.

    Floating-point values are IEEE-754 binary64, taken from the bit-level
    specification [SpecFloat] (53 bits of precision, [emax = 1024]), so
    NaN, signed infinities and signed zeros behave as they do in NumPy.
    The external libraries and the Python built-ins (the conversions
    from text and the string methods, which work on Unicode text) are
    interfaces (type classes): every property below holds for any
    behaviour of theirs, the string methods being fixed on ASCII text
    only, and reference instances make the service executable on
    concrete requests. *)

From Stdlib Require Import ZArith Bool List Ascii String Lia.
From Stdlib Require Import SpecFloat.
From stdpp Require Import base option list strings gmap pretty.

Set Warnings "-register-all".
Local Open Scope Z_scope.

(** ** IEEE-754 binary64 *)

Module F64.

Definition prec : Z := 53.
Definition emax : Z := 1024.

Definition float : Type := spec_float.

Definition nan : float := S754_nan.
Definition of_Z (z : Z) : float := binary_normalize prec emax z 0 false.
Definition zero : float := of_Z 0.
Definition one : float := of_Z 1.

Definition add : float -> float -> float := SFadd prec emax.
Definition sub : float -> float -> float := SFsub prec emax.
Definition mul : float -> float -> float := SFmul prec emax.
Definition div : float -> float -> float := SFdiv prec emax.
Definition sqrt : float -> float := SFsqrt prec emax.
Definition eqb : float -> float -> bool := SFeqb.

(** [np.isnan], [np.isfinite] / [math.isfinite], [math.isinf]. *)
Definition isnan (x : float) : bool :=
  match x with S754_nan => true | _ => false end.

Definition isinf (x : float) : bool :=
  match x with S754_infinity _ => true | _ => false end.

Definition isfinite (x : float) : bool :=
  match x with
  | S754_nan | S754_infinity _ => false
  | S754_zero _ | S754_finite _ _ _ => true
  end.

(** [int(x)] on a finite float: truncation towards zero. *)
Definition trunc (x : float) : Z :=
  match x with
  | S754_finite s m e =>
      let a := match e with
               | Zneg k => Z.shiftr (Zpos m) (Zpos k)
               | _ => Z.shiftl (Zpos m) e
               end in
      if s then - a else a
  | _ => 0
  end.

End F64.

Abbreviation float := F64.float.

#[global] Instance float_inhabited : Inhabited float := populate F64.nan.

(** ** Outcomes of a request handler

    A handler returns a value, raises [HTTPException] (which FastAPI turns
    into the response with that status code), or lets another exception
    escape, which the framework answers with a server error. *)

Inductive pyexn : Type :=
  | ValueError | TypeError | AttributeError | OverflowError.

#[global] Instance pyexn_eq_dec : EqDecision pyexn.
Proof. solve_decision. Defined.

Inductive outcome (A : Type) : Type :=
  | Return (a : A)
  | HTTPException (status_code : Z) (detail : string)
  | Raise (e : pyexn).

Arguments Return {A} a.
Arguments HTTPException {A} status_code detail.
Arguments Raise {A} e.

(** Sequencing stops at the first exception, as Python does. *)
#[global] Instance outcome_ret : MRet outcome := fun A a => Return a.
#[global] Instance outcome_bind : MBind outcome := fun A B k m =>
  match m with
  | Return a => k a
  | HTTPException c d => HTTPException c d
  | Raise e => Raise e
  end.

#[global] Instance outcome_fmap : FMap outcome := fun A B f m =>
  match m with
  | Return a => Return (f a)
  | HTTPException c d => HTTPException c d
  | Raise e => Raise e
  end.

Definition is_client_error {A} (o : outcome A) : Prop :=
  exists c d, o = HTTPException c d /\ 400 <= c < 500.

(** ** Utils *)

(** [_nan_to_none(arr)]: the list comprehension keeps one entry per
    element.  An element is either [None] or a float scalar (every caller
    passes a float64 array, whose scalars are instances of [float]). *)
Definition nan_to_none_item (x : option float) : option float :=
  match x with
  | None => None
  | Some v => if F64.isnan v then None else Some v
  end.

Definition _nan_to_none (arr : list (option float)) : list (option float) :=
  nan_to_none_item <$> arr.

(** A float64 array seen as a sequence of scalars. *)
Definition items (a : list float) : list (option float) := Some <$> a.

(** [_clean_numeric_list(values)] *)
Definition _clean_numeric_list (values : option (list float)) : list float :=
  match values with
  | None | Some [] => []
  | Some arr => filter (fun x => F64.isfinite x = true) arr
  end.

(** [_as_nd(a)] only changes the container. *)
Definition _as_nd (a : list float) : list float := a.

(** ** Python strings

    [str.upper()], [str.lower()] and [str.strip()] are built-ins of the
    interpreter and work on Unicode text.  What they do to text outside
    ASCII is left open: they are operations of the built-in interface
    below.  What is fixed is their behaviour on ASCII text, in which the
    names and labels that the service recognises are written:
    [str.strip()] removes the characters for which [str.isspace] holds
    (tab, line feed, vertical tab, form feed, carriage return, the four
    separators 28..31 and the space), and [str.upper()] and
    [str.lower()] act on the 26 letters. *)

Definition is_space (c : ascii) : bool :=
  let n := N_of_ascii c in
  ((9 <=? n) && (n <=? 13) || (28 <=? n) && (n <=? 32))%N.

Definition upper_char (c : ascii) : ascii :=
  let n := N_of_ascii c in
  if ((97 <=? n) && (n <=? 122))%N then ascii_of_N (n - 32) else c.

Definition lower_char (c : ascii) : ascii :=
  let n := N_of_ascii c in
  if ((65 <=? n) && (n <=? 90))%N then ascii_of_N (n + 32) else c.

Fixpoint map_string (f : ascii -> ascii) (s : string) : string :=
  match s with
  | EmptyString => EmptyString
  | String c r => String (f c) (map_string f r)
  end.

Definition ascii_upper : string -> string := map_string upper_char.
Definition ascii_lower : string -> string := map_string lower_char.

Fixpoint lstrip (s : string) : string :=
  match s with
  | String c r => if is_space c then lstrip r else s
  | EmptyString => EmptyString
  end.

(** [rstrip] keeps a character when it is not a space or when something
    that is kept follows it. *)
Fixpoint rstrip (s : string) : string :=
  match s with
  | EmptyString => EmptyString
  | String c r =>
      match rstrip r with
      | EmptyString => if is_space c then EmptyString else String c EmptyString
      | r' => String c r'
      end
  end.

Definition ascii_strip (s : string) : string := rstrip (lstrip s).

(** A string of code points below 128. *)
Fixpoint is_ascii (s : string) : bool :=
  match s with
  | EmptyString => true
  | String c r => (N_of_ascii c <? 128)%N && is_ascii r
  end.

(** ** Request parameters

    The [params] dictionary of a request holds decoded JSON values. *)

Inductive pval : Type :=
  | PNull
  | PBool (b : bool)
  | PInt (z : Z)
  | PFloat (f : float)
  | PStr (s : string)
  | PContainer.

(** The built-ins of the interpreter that the service relies on: the
    two conversions from text, [float(s)] and [int(s)] on a string
    ([None] standing for the [ValueError] they raise on malformed text),
    and the three string methods, which on ASCII text are the functions
    above. *)
Class PyBuiltins : Type := {
  float_of_str : string -> option float;
  int_of_str : string -> option Z;
  upper : string -> string;
  lower : string -> string;
  strip : string -> string;
  upper_ascii s : is_ascii s = true -> upper s = ascii_upper s;
  lower_ascii s : is_ascii s = true -> lower s = ascii_lower s;
  strip_ascii s : is_ascii s = true -> strip s = ascii_strip s;
}.

(** [int(x)] on a float: NaN is a [ValueError], an infinity an
    [OverflowError]. *)
Definition int_of_float (f : float) : outcome Z :=
  if F64.isnan f then Raise ValueError
  else if F64.isinf f then Raise OverflowError
  else Return (F64.trunc f).

(** [float(z)] on a Python integer is the nearest float when that is
    finite and an [OverflowError] otherwise. *)
Definition float_of_int (z : Z) : outcome float :=
  let f := F64.of_Z z in
  if F64.isfinite f then Return f else Raise OverflowError.

Definition py_float_str `{PyBuiltins} (s : string) : outcome float :=
  match float_of_str s with
  | Some f => Return f
  | None => Raise ValueError
  end.

Definition py_int `{PyBuiltins} (v : pval) : outcome Z :=
  match v with
  | PInt z => Return z
  | PBool b => Return (if b then 1 else 0)
  | PFloat f => int_of_float f
  | PStr s => match int_of_str s with
              | Some z => Return z
              | None => Raise ValueError
              end
  | PNull | PContainer => Raise TypeError
  end.

Definition py_float `{PyBuiltins} (v : pval) : outcome float :=
  match v with
  | PFloat f => Return f
  | PInt z => float_of_int z
  | PBool b => Return (if b then F64.one else F64.zero)
  | PStr s => py_float_str s
  | PNull | PContainer => Raise TypeError
  end.

(** [v.lower()] exists on strings only. *)
Definition py_lower `{PyBuiltins} (v : pval) : outcome string :=
  match v with
  | PStr s => Return (lower s)
  | _ => Raise AttributeError
  end.

(** [try: body except (excs): handler] *)
Definition try_except {A} (body : outcome A) (excs : list pyexn)
    (handler : outcome A) : outcome A :=
  match body with
  | Raise e => if bool_decide (e ∈ excs) then handler else Raise e
  | other => other
  end.

(** ** Period resolver *)

Definition _PERIOD_SETTINGS : gmap string (string * Z) :=
  list_to_map [
    ("daily", ("D", 252));
    ("day", ("D", 252));
    ("1d", ("D", 252));
    ("weekly", ("W", 52));
    ("week", ("W", 52));
    ("1w", ("W", 52));
    ("monthly", ("M", 12));
    ("month", ("M", 12));
    ("1m", ("M", 12));
    ("quarterly", ("Q", 4));
    ("quarter", ("Q", 4));
    ("1q", ("Q", 4));
    ("yearly", ("Y", 1));
    ("annual", ("Y", 1));
    ("1y", ("Y", 1))
  ]%string.

(** [_resolve_period_settings(label)].  The [try] block yields the pair
    to return, or [None] when control falls through to the last line. *)
Definition _resolve_period_settings `{PyBuiltins} (label : option string)
    : outcome (string * Z) :=
  match label with
  | None | Some EmptyString => Return ("D"%string, 252)
  | Some l =>
      let key := lower (strip l) in
      match _PERIOD_SETTINGS !! key with
      | Some setting => Return setting
      | None =>
          r ← try_except
                (x ← py_float_str key;
                 periods ← int_of_float x;
                 if 0 <? periods then Return (Some ("D"%string, periods))
                 else Return None)
                [TypeError; ValueError]
                (Return None);
          match r with
          | Some setting => Return setting
          | None => Return ("D"%string, 252)
          end
      end
  end.

(** ** Array slices

    [a[start:stop]] with Python's treatment of negative and out-of-range
    bounds; [None] is an omitted bound. *)

Definition slice_index (len i : Z) : Z :=
  if i <? 0 then Z.max 0 (i + len) else Z.min i len.

Definition py_slice {A} (start stop : option Z) (a : list A) : list A :=
  let n := Z.of_nat (length a) in
  let lo := from_option (slice_index n) 0 start in
  let hi := from_option (slice_index n) n stop in
  take (Z.to_nat (hi - lo)) (drop (Z.to_nat lo) a).

(** [dst[start:] = src] on NumPy arrays: the source must have the length
    of the target slice, or length one (which is broadcast); any other
    shape is a [ValueError]. *)
Definition np_assign_from (start : Z) (dst src : list float)
    : outcome (list float) :=
  let n := Z.of_nat (length dst) in
  let lo := Z.to_nat (slice_index n start) in
  let width := (length dst - lo)%nat in
  if bool_decide (length src = width) then Return (take lo dst ++ src)
  else match src with
       | [x] => Return (take lo dst ++ replicate width x)
       | _ => Raise ValueError
       end.

(** ** Return/equity normaliser *)

Record QuantStatsRequest : Type := {
  returns : option (list float);
  equity : option (list float);
  risk_free_rate : float;
  period : string;
  confidence : float;
}.

(** [_equity_to_returns(equity)] *)
Definition _equity_to_returns (equity : list float) : list float :=
  if (length equity <? 2)%nat then []
  else
    let prev := py_slice None (Some (-1)) equity in
    let curr := py_slice (Some 1) None equity in
    let safe_prev :=
      (fun p => if F64.eqb p F64.zero then F64.nan else p) <$> prev in
    let returns :=
      zip_with (fun c p => F64.sub (F64.div c p) F64.one) curr safe_prev in
    filter (fun r => F64.isfinite r = true) returns.

(** Truth value of an optional list: [None] and [[]] are false. *)
Definition truthy {A} (l : option (list A)) : bool :=
  match l with
  | Some (_ :: _) => true
  | _ => false
  end.

(** The head of [quantstats_metrics]: the return series the statistics
    are computed from, or the 400 response. *)
Definition quantstats_returns (req : QuantStatsRequest) : outcome (list float) :=
  let returns_arr := _clean_numeric_list (returns req) in
  let returns_arr :=
    if (length returns_arr <? 2)%nat && truthy (equity req)
    then _equity_to_returns (_clean_numeric_list (equity req))
    else returns_arr in
  if (length returns_arr <? 2)%nat
  then HTTPException 400
         "Provide at least two clean return observations or equity points."
  else Return returns_arr.

(** ** Metrics aggregator *)

(** What a statistic may hand back: a Python or NumPy scalar, a sized
    sequence (array, list or tuple), a zero-dimensional array (on which
    [len] raises), or an object of any other type. *)
Inductive pyvalue : Type :=
  | PyFloat (x : float)
  | PyInt (z : Z)
  | NpFloating (x : float)
  | NpInteger (z : Z)
  | PySequence (elts : list pyvalue)
  | NpArray0
  | PyObject.

(** The date-indexed series built by [_returns_series]: its values and
    the frequency tag that spaces the synthetic index. *)
Record Series : Type := {
  values : list float;
  freq : string;
}.

Inductive kwarg : Type :=
  | periods (z : Z)
  | confidence_level (x : float).

(** [quantstats.stats]: each function returns a value or raises. *)
Class QuantStats : Type := {
  qs_stats : string -> Series -> list kwarg -> outcome pyvalue;
}.

(** The [try] block of [capture]: the entry to store. *)
Definition capture_try (fn : outcome pyvalue) : outcome (option float) :=
  value ← fn;
  value ← match value with
          | PySequence elts =>
              match elts with
              | v :: _ => Return v
              | [] => Return (PyFloat F64.nan)
              end
          | NpArray0 => Raise TypeError
          | _ => Return value
          end;
  value ← match value with
          | NpFloating x => Return (PyFloat x)
          | NpInteger z => PyFloat <$> float_of_int z
          | _ => Return value
          end;
  match value with
  | PyFloat x => if F64.isfinite x then Return (Some x) else Return None
  | PyInt z =>
      x ← float_of_int z;
      if F64.isfinite x then Some <$> float_of_int z else Return None
  | _ => Return None
  end.

(** [capture(name, fn)]: [except Exception] stores [None]. *)
Definition capture (metrics : gmap string (option float)) (name : string)
    (fn : outcome pyvalue) : gmap string (option float) :=
  match capture_try fn with
  | Return entry => <[name := entry]> metrics
  | _ => <[name := None]> metrics
  end.

(** The tail of [quantstats_metrics], from the creation of [metrics] to
    the response.  An array holds fewer than 2^63 elements, so the
    conversion of the sample size does not overflow. *)
Definition quantstats_battery `{QuantStats} (series calmar_series : Series)
    (periods_per_year : Z) (conf : float) : gmap string (option float) :=
  let metrics : gmap string (option float) :=
    {[ "qs_sample_size"%string :=
         Some (F64.of_Z (Z.of_nat (length (values series)))) ]} in
  let metrics := capture metrics "qs_calmar"
    (qs_stats "calmar" calmar_series [periods periods_per_year]) in
  let metrics := capture metrics "qs_omega" (qs_stats "omega" series []) in
  let metrics := capture metrics "qs_tail_ratio"
    (qs_stats "tail_ratio" series []) in
  let metrics := capture metrics "qs_common_sense_ratio"
    (qs_stats "common_sense_ratio" series []) in
  let metrics := capture metrics "qs_value_at_risk"
    (qs_stats "value_at_risk" series [confidence_level conf]) in
  let metrics := capture metrics "qs_cvar"
    (qs_stats "cvar" series [confidence_level conf]) in
  let metrics := capture metrics "qs_ulcer_index"
    (qs_stats "ulcer_index" series []) in
  let metrics := capture metrics "qs_avg_drawdown"
    (qs_stats "avg_drawdown" series []) in
  let metrics := capture metrics "qs_avg_drawdown_days"
    (qs_stats "avg_drawdown_days" series []) in
  let metrics := capture metrics "qs_payoff_ratio"
    (qs_stats "payoff_ratio" series []) in
  let metrics := capture metrics "qs_profit_ratio"
    (qs_stats "profit_ratio" series []) in
  let metrics := capture metrics "qs_gain_to_pain_ratio"
    (qs_stats "gain_to_pain_ratio" series []) in
  let metrics := capture metrics "qs_skew" (qs_stats "skew" series []) in
  let metrics := capture metrics "qs_kurtosis"
    (qs_stats "kurtosis" series []) in
  let metrics := capture metrics "qs_win_rate"
    (qs_stats "win_rate" series []) in
  let metrics := capture metrics "qs_loss_rate"
    (qs_stats "loss_rate" series []) in
  metrics.

(** ** Indicator dispatcher, close-only shape *)

Record CloseOnlyReq : Type := {
  indicator : string;
  prices : list float;
  params : option (gmap string pval);
}.

(** TA-Lib, as far as the close-only branch calls it. *)
Class TALib : Type := {
  talib_RSI : list float -> Z -> outcome (list float);
  talib_SMA : list float -> Z -> outcome (list float);
  talib_EMA : list float -> Z -> outcome (list float);
  talib_MACD : list float -> Z -> Z -> Z ->
               outcome (list float * list float * list float);
  talib_PPO : list float -> Z -> Z -> Z -> outcome (list float);
  talib_BBANDS : list float -> Z -> float -> float -> Z ->
                 outcome (list float * list float * list float);
}.

(** pandas, as far as VOLATILITY calls it: [window_std w] is what
    [Series.rolling(window).std()] reports for one full window [w], the
    sample standard deviation (one delta degree of freedom), NaN when it
    is undefined. *)
Class Pandas : Type := {
  window_std : list float -> float;
}.

(** [pd.Series(xs).rolling(window=w).std().values]: a negative window is
    rejected; position [j] is NaN until [w] observations are available
    and then summarises [xs[j+1-w : j+1]]. *)
Definition rolling_std `{Pandas} (window : Z) (xs : list float)
    : outcome (list float) :=
  if window <? 0 then Raise ValueError
  else
    let w := Z.to_nat window in
    Return ((fun j : nat =>
               if (j + 1 <? w)%nat then F64.nan
               else window_std (take w (drop (j + 1 - w) xs)))
            <$> seq 0 (length xs)).

(** A statement of a function body either returns a value ([Some]) or
    completes and lets control reach the next statement ([None]). *)
Abbreviation stmt A := (outcome (option A)).

Definition return_ {A} (a : A) : stmt A := Return (Some a).
Definition pass {A} : stmt A := Return None.
Definition py_if {A} (c : bool) (body : stmt A) : stmt A :=
  if c then body else pass.

Definition stmt_seq {A} (s rest : stmt A) : stmt A :=
  r ← s; match r with Some a => return_ a | None => rest end.

Definition stmt_end {A} (s : stmt A) (rest : outcome A) : outcome A :=
  r ← s; match r with Some a => Return a | None => rest end.

Infix ">>" := stmt_seq (at level 99, right associativity).
Infix ">>|" := stmt_end (at level 100, right associativity).

Definition is_in (x : string) (names : list string) : bool :=
  bool_decide (x ∈ names).

(** [(payload.get("indicator") or "").upper().strip()] *)
Definition indicator_name `{PyBuiltins} (i : option string) : string :=
  strip (upper (default EmptyString i)).

(** [req.params.get(key, default)] *)
Definition params_get (req : CloseOnlyReq) (key : string) (dflt : pval)
    : outcome pval :=
  match params req with
  | None => Raise AttributeError
  | Some d => Return (default dflt (d !! key))
  end.

Definition int_param `{PyBuiltins} (req : CloseOnlyReq) (key : string)
    (dflt : Z) : outcome Z :=
  v ← params_get req key (PInt dflt); py_int v.

Definition float_param `{PyBuiltins} (req : CloseOnlyReq) (key : string)
    (dflt : float) : outcome float :=
  v ← params_get req key (PFloat dflt); py_float v.

Definition np_diff (a : list float) : list float :=
  zip_with F64.sub (py_slice (Some 1) None a) (py_slice None (Some (-1)) a).

(** The CUMULATIVE_RETURN block. *)
Definition cumulative_return (prices : list float)
    : outcome (list (option float)) :=
  if (length prices <? 1)%nat || F64.eqb (prices !!! 0%nat) F64.zero
  then HTTPException 400 "Invalid prices for cumulative return"
  else
    let result := replicate (length prices) F64.nan in
    result ← (if (1 <? length prices)%nat
              then np_assign_from 1 result
                     ((fun p => F64.sub (F64.div p (prices !!! 0%nat)) F64.one)
                        <$> py_slice None (Some (-1)) prices)
              else Return result);
    let result := <[0%nat := F64.zero]> result in
    Return (_nan_to_none (items result)).

(** [np.diff(prices) / prices[:-1]] *)
Definition simple_returns (prices : list float) : list float :=
  zip_with F64.div (np_diff prices) (py_slice None (Some (-1)) prices).

(** [req.params.get("annualize", "true").lower() == "true"] *)
Definition annualize_requested `{PyBuiltins} (req : CloseOnlyReq)
    : outcome bool :=
  a ← params_get req "annualize" (PStr "true");
  a ← py_lower a;
  Return (bool_decide (a = "true"%string)).

(** [np.sqrt(252)] *)
Definition sqrt_252 : float := F64.sqrt (F64.of_Z 252).

(** The VOLATILITY block. *)
Definition volatility `{PyBuiltins} `{Pandas} (req : CloseOnlyReq)
    (prices : list float) : outcome (list (option float)) :=
  period ← int_param req "period" 20;
  annualize ← annualize_requested req;
  if Z.of_nat (length prices) <? period + 1
  then HTTPException 400
         ("Need at least " +:+ pretty (period + 1)
          +:+ " prices for volatility calculation")
  else
    let returns := simple_returns prices in
    rolling_vol ← rolling_std period returns;
    let rolling_vol :=
      if (annualize : bool)
      then (fun v => F64.mul v sqrt_252) <$> rolling_vol
      else rolling_vol in
    let result := replicate (length prices) F64.nan in
    result ← (if period <? Z.of_nat (length prices)
              then np_assign_from period result
                     (py_slice (Some (period - 2)) (Some (-1)) rolling_vol)
              else Return result);
    Return (_nan_to_none (items result)).

(** The close-only path of [indicator_router], entered when the payload
    has a ["prices"] field and has been validated as a [CloseOnlyReq]. *)
Definition indicator_router_close_only `{PyBuiltins} `{Pandas} `{TALib}
    (req : CloseOnlyReq) : outcome (list (option float)) :=
  let ind := indicator_name (Some (indicator req)) in
  let prices := _as_nd (prices req) in
  let sanitized (out : list float) : stmt (list (option float)) :=
    return_ (_nan_to_none (items out)) in
  py_if (length prices <? 2)%nat
    (HTTPException 400 "prices must contain at least 2 values") >>
  py_if (bool_decide (ind = "CURRENT_PRICE"%string)
         || is_in ind ["PRICE"; "CLOSE"; "LAST"]%string)
    (sanitized prices) >>
  py_if (bool_decide (ind = "RSI"%string))
    (period ← int_param req "period" 14;
     if Z.of_nat (length prices) <? period
     then HTTPException 400 "prices length must be >= period"
     else out ← talib_RSI prices period; sanitized out) >>
  py_if (bool_decide (ind = "SMA"%string))
    (period ← int_param req "period" 14;
     out ← talib_SMA prices period; sanitized out) >>
  py_if (bool_decide (ind = "EMA"%string))
    (period ← int_param req "period" 14;
     out ← talib_EMA prices period; sanitized out) >>
  py_if (is_in ind ["MACD"; "MACD_HIST"; "MACD-HIST"; "MACD_LINE";
                    "MACD_SIGNAL"]%string)
    (fast ← int_param req "fastperiod" 12;
     slow ← int_param req "slowperiod" 26;
     signal ← int_param req "signalperiod" 9;
     '(macd, macd_signal, macd_hist) ← talib_MACD prices fast slow signal;
     (py_if (is_in ind ["MACD"; "MACD_HIST"; "MACD-HIST"]%string)
        (sanitized macd_hist) >>
      py_if (bool_decide (ind = "MACD_LINE"%string)) (sanitized macd) >>
      py_if (bool_decide (ind = "MACD_SIGNAL"%string))
        (sanitized macd_signal))) >>
  py_if (is_in ind ["PPO"; "PPO_LINE"; "PPO_SIGNAL"; "PPO_HIST"]%string)
    (fast ← int_param req "fastperiod" 12;
     slow ← int_param req "slowperiod" 26;
     matype ← int_param req "matype" 0;
     ppo_line ← talib_PPO prices fast slow matype;
     (py_if (is_in ind ["PPO"; "PPO_LINE"]%string) (sanitized ppo_line) >>
      (signalperiod ← int_param req "signalperiod" 9;
       ppo_signal ← talib_EMA ppo_line signalperiod;
       (py_if (bool_decide (ind = "PPO_SIGNAL"%string))
          (sanitized ppo_signal) >>
        py_if (bool_decide (ind = "PPO_HIST"%string))
          (sanitized (zip_with F64.sub ppo_line ppo_signal)))))) >>
  py_if (is_in ind ["BBANDS_UPPER"; "BBANDS_MIDDLE"; "BBANDS_LOWER"]%string)
    (period ← int_param req "period" 20;
     nbdevup ← float_param req "nbdevup" (F64.of_Z 2);
     nbdevdn ← float_param req "nbdevdn" (F64.of_Z 2);
     matype ← int_param req "matype" 0;
     '(upper, middle, lower) ←
        talib_BBANDS prices period nbdevup nbdevdn matype;
     (py_if (bool_decide (ind = "BBANDS_UPPER"%string)) (sanitized upper) >>
      py_if (bool_decide (ind = "BBANDS_MIDDLE"%string)) (sanitized middle) >>
      py_if (bool_decide (ind = "BBANDS_LOWER"%string)) (sanitized lower))) >>
  py_if (bool_decide (ind = "CUMULATIVE_RETURN"%string))
    (Some <$> cumulative_return prices) >>
  py_if (bool_decide (ind = "VOLATILITY"%string))
    (Some <$> volatility req prices) >>|
  HTTPException 400 ("Unsupported close-only indicator '" +:+ ind +:+ "'").

(** ** Reference instances of the external libraries

    Executable stand-ins for the built-ins and libraries, used to run the
    service on concrete requests. *)

(** Decimal text, after the grammar of Python's [float] and [int]:
    [digitpart ::= digit (["_"] digit)*]. *)
Definition digit_of (c : ascii) : option Z :=
  let n := N_of_ascii c in
  if ((48 <=? n) && (n <=? 57))%N then Some (Z.of_N (n - 48)) else None.

(** Reads the rest of a digit part; returns its value, the number of
    digits read in all, and the remaining text. *)
Fixpoint digit_run (acc count : Z) (s : string) : Z * Z * string :=
  match s with
  | String c r =>
      match digit_of c with
      | Some d => digit_run (10 * acc + d) (count + 1) r
      | None =>
          if bool_decide (c = "_"%char) then
            match r with
            | String c' r' =>
                match digit_of c' with
                | Some d => digit_run (10 * acc + d) (count + 1) r'
                | None => (acc, count, s)
                end
            | EmptyString => (acc, count, s)
            end
          else (acc, count, s)
      end
  | EmptyString => (acc, count, s)
  end.

Definition digitpart (s : string) : option (Z * Z * string) :=
  match s with
  | String c r =>
      match digit_of c with
      | Some d => Some (digit_run d 1 r)
      | None => None
      end
  | EmptyString => None
  end.

Definition sign_of (s : string) : bool * string :=
  match s with
  | String "-" r => (true, r)
  | String "+" r => (false, r)
  | _ => (false, s)
  end.

(** [number ::= [digitpart] "." digitpart | digitpart ["."]], as a
    mantissa and a power of ten. *)
Definition number (s : string) : option (Z * Z * string) :=
  match digitpart s with
  | Some (ip, _, String "." r) =>
      match digitpart r with
      | Some (fp, k, r') => Some (ip * 10 ^ k + fp, - k, r')
      | None => Some (ip, 0, r)
      end
  | Some (ip, _, r) => Some (ip, 0, r)
  | None =>
      match s with
      | String "." r =>
          match digitpart r with
          | Some (fp, k, r') => Some (fp, - k, r')
          | None => None
          end
      | _ => None
      end
  end.

(** [exponent ::= ("e" | "E") [sign] digitpart]; absent is zero. *)
Definition exponent (s : string) : option (Z * string) :=
  match s with
  | String c r =>
      if bool_decide (c = "e"%char) || bool_decide (c = "E"%char) then
        let '(neg, r) := sign_of r in
        match digitpart r with
        | Some (e, _, r') => Some (if neg then - e else e, r')
        | None => None
        end
      else Some (0, s)
  | EmptyString => Some (0, s)
  end.

(** The binary64 nearest to [m * 10^e] (ties to even), with sign [neg]. *)
Definition decimal_to_float (neg : bool) (m e : Z) : float :=
  match m with
  | Zpos p =>
      if 0 <=? e then
        F64.of_Z (if neg then - (m * 10 ^ e) else m * 10 ^ e)
      else
        SFdiv F64.prec F64.emax (S754_finite neg p 0)
          (S754_finite false (Z.to_pos (10 ^ (- e))) 0)
  | _ => S754_zero neg
  end.

Definition decimal_float_of_str (s : string) : option float :=
  let '(neg, body) := sign_of (ascii_strip s) in
  let word := ascii_lower body in
  if bool_decide (word = "inf"%string) || bool_decide (word = "infinity"%string)
  then Some (S754_infinity neg)
  else if bool_decide (word = "nan"%string) then Some F64.nan
  else
    match number body with
    | Some (m, e, r) =>
        match exponent r with
        | Some (x, EmptyString) => Some (decimal_to_float neg m (e + x))
        | _ => None
        end
    | None => None
    end.

Definition decimal_int_of_str (s : string) : option Z :=
  let '(neg, body) := sign_of (ascii_strip s) in
  match digitpart body with
  | Some (z, _, EmptyString) => Some (if neg then - z else z)
  | _ => None
  end.

(** The reference built-ins read decimal text and apply the ASCII string
    functions to any text. *)
Definition decimal_builtins : PyBuiltins :=
  {| float_of_str := decimal_float_of_str;
     int_of_str := decimal_int_of_str;
     upper := ascii_upper;
     lower := ascii_lower;
     strip := ascii_strip;
     upper_ascii := fun _ _ => eq_refl;
     lower_ascii := fun _ _ => eq_refl;
     strip_ascii := fun _ _ => eq_refl |}.

(** A two-pass sample standard deviation; windows that hold a non-finite
    value or fewer than two values have none. *)
Definition fsum (xs : list float) : float := foldl F64.add F64.zero xs.

Definition two_pass_std (w : list float) : float :=
  if forallb F64.isfinite w && (2 <=? length w)%nat then
    let n := F64.of_Z (Z.of_nat (length w)) in
    let mean := F64.div (fsum w) n in
    let ss := fsum ((fun x => let d := F64.sub x mean in F64.mul d d) <$> w) in
    F64.sqrt (F64.div ss (F64.sub n F64.one))
  else F64.nan.

Definition two_pass_pandas : Pandas := {| window_std := two_pass_std |}.

(** A TA-Lib whose every output line is still in its warm-up period. *)
Definition warmup (a : list float) : list float :=
  replicate (length a) F64.nan.

Definition warmup_talib : TALib :=
  {| talib_RSI := fun a _ => Return (warmup a);
     talib_SMA := fun a _ => Return (warmup a);
     talib_EMA := fun a _ => Return (warmup a);
     talib_MACD := fun a _ _ _ => Return (warmup a, warmup a, warmup a);
     talib_PPO := fun a _ _ _ => Return (warmup a);
     talib_BBANDS := fun a _ _ _ _ => Return (warmup a, warmup a, warmup a) |}.

(** ** Specification-level definitions

    Written after the words of the specification, to be compared with
    the code above. *)



(** "r[i] = equity[i+1]/equity[i] - 1 for consecutive pairs", an
    observation being dropped when its denominator is zero or its value
    is not finite. *)
Definition spec_return_at (equity : list float) (i : nat) : option float :=
  match equity !! i, equity !! S i with
  | Some prev, Some curr =>
      if F64.eqb prev F64.zero then None
      else
        let r := F64.sub (F64.div curr prev) F64.one in
        if F64.isfinite r then Some r else None
  | _, _ => None
  end.

Definition spec_equity_returns (equity : list float) : list float :=
  omap (spec_return_at equity) (seq 0 (length equity - 1)).

(** All the pairwise changes, kept or not. *)
Definition pairwise_changes (equity : list float) : list float :=
  zip_with (fun curr prev => F64.sub (F64.div curr prev) F64.one)
    (drop 1 equity) (take (length equity - 1) equity).

(** The sixteen calls of the battery, in source order: the name each
    result is stored under and the statistic that is invoked. *)
Definition battery_calls `{QuantStats} (series calmar_series : Series)
    (periods_per_year : Z) (conf : float) : list (string * outcome pyvalue) :=
  [ ("qs_calmar", qs_stats "calmar" calmar_series [periods periods_per_year]);
    ("qs_omega", qs_stats "omega" series []);
    ("qs_tail_ratio", qs_stats "tail_ratio" series []);
    ("qs_common_sense_ratio", qs_stats "common_sense_ratio" series []);
    ("qs_value_at_risk", qs_stats "value_at_risk" series [confidence_level conf]);
    ("qs_cvar", qs_stats "cvar" series [confidence_level conf]);
    ("qs_ulcer_index", qs_stats "ulcer_index" series []);
    ("qs_avg_drawdown", qs_stats "avg_drawdown" series []);
    ("qs_avg_drawdown_days", qs_stats "avg_drawdown_days" series []);
    ("qs_payoff_ratio", qs_stats "payoff_ratio" series []);
    ("qs_profit_ratio", qs_stats "profit_ratio" series []);
    ("qs_gain_to_pain_ratio", qs_stats "gain_to_pain_ratio" series []);
    ("qs_skew", qs_stats "skew" series []);
    ("qs_kurtosis", qs_stats "kurtosis" series []);
    ("qs_win_rate", qs_stats "win_rate" series []);
    ("qs_loss_rate", qs_stats "loss_rate" series []) ]%string.

(** The entry [capture] leaves for a statistic taken on its own. *)
Definition captured (fn : outcome pyvalue) : option float :=
  match capture_try fn with
  | Return entry => entry
  | _ => None
  end.

(** A statistics library with one function per way of going wrong: an
    infinite Calmar ratio (no drawdown), an exception, a NaN inside an
    array, an integer count; every other statistic is one half. *)
Definition sample_quantstats : QuantStats :=
  {| qs_stats := fun fn _ _ =>
       if bool_decide (fn = "calmar"%string)
       then Return (NpFloating (S754_infinity false))
       else if bool_decide (fn = "omega"%string) then Raise ValueError
       else if bool_decide (fn = "skew"%string)
       then Return (PySequence [NpFloating F64.nan])
       else if bool_decide (fn = "avg_drawdown_days"%string)
       then Return (PyInt 3)
       else Return (PyFloat (F64.div F64.one (F64.of_Z 2))) |}.

(** "R[0] = 0 and, for i >= 1, R[i] = P[i-1]/P[0] - 1", each value as
    the sanitizer renders it. *)
Definition spec_cumulative_return (prices : list float) : list (option float) :=
  (fun i : nat =>
     match i with
     | O => Some F64.zero
     | S j =>
         nan_to_none_item
           (Some (F64.sub (F64.div (prices !!! j) (prices !!! 0%nat)) F64.one))
     end) <$> seq 0 (length prices).

(** Multiplication by [sqrt(252)] when annualization is requested. *)
Definition annualized (annualize : bool) (v : float) : float :=
  if annualize then F64.mul v sqrt_252 else v.

(** "V[i] is missing for every i < period + 1, and otherwise the sample
    standard deviation of the returns d[i-period-1 .. i-2]", annualised
    on request and rendered by the sanitizer. *)
Definition spec_volatility `{Pandas} (annualize : bool) (p : nat)
    (prices : list float) : list (option float) :=
  (fun i : nat =>
     if (i <? p + 1)%nat then None
     else nan_to_none_item
            (Some (annualized annualize
                     (window_std
                        (take p (drop (i - 1 - p) (simple_returns prices)))))))
  <$> seq 0 (length prices).

(** Requests used as concrete inputs. *)
Definition request (ind : string) (ps : list Z) (kv : list (string * pval))
    : CloseOnlyReq :=
  {| indicator := ind; prices := F64.of_Z <$> ps;
     params := Some (list_to_map kv) |}.

Definition serve (req : CloseOnlyReq) : outcome (list (option float)) :=
  @indicator_router_close_only decimal_builtins two_pass_pandas warmup_talib req.

(** Two responses agree up to index [i]: the same failure, or arrays
    with the same entries at every position [j <= i]. *)
Definition agree_upto {A} (i : nat) (o o' : outcome (list A)) : Prop :=
  match o, o' with
  | Return V, Return V' => forall j : nat, (j <= i)%nat -> V !! j = V' !! j
  | _, _ => o = o'
  end.

(** ** The whole dispatcher: payload shapes

    The body of a POST to [/indicator] is a JSON object, taken as an
    untyped [dict]; a field is [None] when the key is absent.

    The handler reads the value under ["indicator"] before any request
    model is built, so that field is any decoded JSON value: a string, or
    a value of another type.  Of the latter the handler uses the truth
    value only ([null], [false], [0], [0.0], [[]] and [{}] are false),
    and the request models whether they take it for the [str] they
    declare (pydantic 1 converts numbers, pydantic 2 takes no other
    type; neither takes [null] or a container).

    The arrays are read by the request models only and are modelled with
    the types these declare (an ill-typed array is outside the model).
    [pl_params] distinguishes an absent key (the default [{}]) from an
    explicit [null]. *)

Inductive indicator_field : Type :=
  | IndStr (s : string)
  | IndOther (truthy valid_str : bool).

Record Payload : Type := {
  pl_indicator : option indicator_field;
  pl_prices : option (list float);
  pl_high : option (list float);
  pl_low : option (list float);
  pl_close : option (list float);
  pl_volume : option (list float);
  pl_params : option (option (gmap string pval));
}.

(** TA-Lib, as far as the three bar-based shapes call it. *)
Class TALibBars : Type := {
  talib_ADX : list float -> list float -> list float -> Z ->
              outcome (list float);
  talib_STOCH : list float -> list float -> list float ->
                Z -> Z -> Z -> Z -> Z -> outcome (list float * list float);
  talib_AROON : list float -> list float -> Z ->
                outcome (list float * list float);
  talib_AROONOSC : list float -> list float -> Z -> outcome (list float);
  talib_WILLR : list float -> list float -> list float -> Z ->
                outcome (list float);
  talib_CCI : list float -> list float -> list float -> Z ->
              outcome (list float);
  talib_NATR : list float -> list float -> list float -> Z ->
               outcome (list float);
  talib_MFI : list float -> list float -> list float -> list float -> Z ->
              outcome (list float);
  talib_AD : list float -> list float -> list float -> list float ->
             outcome (list float);
  talib_ADOSC : list float -> list float -> list float -> list float ->
                Z -> Z -> outcome (list float);
  talib_OBV : list float -> list float -> outcome (list float);
}.

(** [payload.get("indicator") or ""], on which [.upper()] is called
    next: a missing key and a false value give the empty string, and a
    true value that is not a string has no [upper] method. *)
Definition indicator_text (payload : Payload) : outcome string :=
  match pl_indicator payload with
  | Some (IndStr s) => Return s
  | Some (IndOther true _) => Raise AttributeError
  | Some (IndOther false _) | None => Return EmptyString
  end.

(** Every request model requires [indicator: str]; constructing one from
    a payload without it, or with a value it does not take for a string,
    raises pydantic's [ValidationError], a subclass of [ValueError],
    inside the handler. *)
Definition required_indicator (payload : Payload) : outcome unit :=
  match pl_indicator payload with
  | Some (IndStr _) | Some (IndOther _ true) => Return ()
  | Some (IndOther _ false) | None => Raise ValueError
  end.

(** [params: Optional[Dict] = {}] *)
Definition payload_params (payload : Payload) : option (gmap string pval) :=
  match pl_params payload with
  | None => Some ∅
  | Some p => p
  end.

(** [req.params.get(key, default)] and [int(...)] of it, on the params
    of any request model. *)
Definition dict_get (params : option (gmap string pval)) (key : string)
    (dflt : pval) : outcome pval :=
  match params with
  | None => Raise AttributeError
  | Some d => Return (default dflt (d !! key))
  end.

Definition dict_int `{PyBuiltins} (params : option (gmap string pval))
    (key : string) (dflt : Z) : outcome Z :=
  v ← dict_get params key (PInt dflt); py_int v.

Definition malformed_request {A} : outcome A :=
  HTTPException 400 "Malformed request: missing required fields".

(** The HLC path. *)
Definition indicator_router_hlc `{PyBuiltins} `{TALibBars} (ind : string)
    (params : option (gmap string pval)) (high low close : list float)
    : outcome (list (option float)) :=
  let sanitized (out : list float) : stmt (list (option float)) :=
    return_ (_nan_to_none (items out)) in
  py_if (bool_decide (ind = "ADX"%string))
    (period ← dict_int params "period" 14;
     out ← talib_ADX high low close period; sanitized out) >>
  py_if (bool_decide (ind = "STOCH_K"%string))
    (fastk ← dict_int params "fastk_period" 14;
     slowk ← dict_int params "slowk_period" 3;
     slowd ← dict_int params "slowd_period" 3;
     slowk_matype ← dict_int params "slowk_matype" 0;
     slowd_matype ← dict_int params "slowd_matype" 0;
     '(slowk_arr, slowd_arr) ←
        talib_STOCH high low close fastk slowk slowk_matype slowd slowd_matype;
     sanitized slowk_arr) >>
  py_if (is_in ind ["AROON_UP"; "AROON_DOWN"]%string)
    (period ← dict_int params "period" 14;
     '(aroondown, aroonup) ← talib_AROON high low period;
     (py_if (bool_decide (ind = "AROON_UP"%string)) (sanitized aroonup) >>
      py_if (bool_decide (ind = "AROON_DOWN"%string)) (sanitized aroondown))) >>
  py_if (bool_decide (ind = "AROONOSC"%string))
    (period ← dict_int params "period" 14;
     out ← talib_AROONOSC high low period; sanitized out) >>
  py_if (bool_decide (ind = "WILLR"%string))
    (period ← dict_int params "period" 14;
     out ← talib_WILLR high low close period; sanitized out) >>
  py_if (bool_decide (ind = "CCI"%string))
    (period ← dict_int params "period" 14;
     out ← talib_CCI high low close period; sanitized out) >>
  py_if (bool_decide (ind = "NATR"%string))
    (period ← dict_int params "period" 14;
     out ← talib_NATR high low close period; sanitized out) >>|
  HTTPException 400 ("Unsupported HLC indicator '" +:+ ind +:+ "'").

(** The HLCV path. *)
Definition indicator_router_hlcv `{PyBuiltins} `{TALibBars} (ind : string)
    (params : option (gmap string pval)) (high low close volume : list float)
    : outcome (list (option float)) :=
  let sanitized (out : list float) : stmt (list (option float)) :=
    return_ (_nan_to_none (items out)) in
  py_if (bool_decide (ind = "MFI"%string))
    (period ← dict_int params "period" 14;
     out ← talib_MFI high low close volume period; sanitized out) >>
  py_if (bool_decide (ind = "AD"%string))
    (out ← talib_AD high low close volume; sanitized out) >>
  py_if (bool_decide (ind = "ADOSC"%string))
    (fast ← dict_int params "fastperiod" 3;
     slow ← dict_int params "slowperiod" 10;
     out ← talib_ADOSC high low close volume fast slow; sanitized out) >>|
  HTTPException 400 ("Unsupported HLCV indicator '" +:+ ind +:+ "'").

(** The close + volume path. *)
Definition indicator_router_cv `{TALibBars} (ind : string)
    (close volume : list float) : outcome (list (option float)) :=
  let sanitized (out : list float) : stmt (list (option float)) :=
    return_ (_nan_to_none (items out)) in
  py_if (bool_decide (ind = "OBV"%string))
    (out ← talib_OBV close volume; sanitized out) >>|
  HTTPException 400 ("Unsupported Close+Volume indicator '" +:+ ind +:+ "'").

(** [indicator_router(payload)]: the name is read first; then the shape
    is read off the keys that are present, in this order: ["prices"];
    high, low and close without volume; all four; close and volume
    without high.  The close-only path is entered with the text the name
    is read from. *)
Definition indicator_router `{PyBuiltins} `{Pandas} `{TALib} `{TALibBars}
    (payload : Payload) : outcome (list (option float)) :=
  text ← indicator_text payload;
  let ind := indicator_name (Some text) in
  match pl_prices payload with
  | Some ps =>
      _ ← required_indicator payload;
      indicator_router_close_only
        {| indicator := text; prices := ps;
           params := payload_params payload |}
  | None =>
      match pl_high payload, pl_low payload, pl_close payload,
            pl_volume payload with
      | Some high, Some low, Some close, None =>
          _ ← required_indicator payload;
          indicator_router_hlc ind (payload_params payload)
            (_as_nd high) (_as_nd low) (_as_nd close)
      | Some high, Some low, Some close, Some volume =>
          _ ← required_indicator payload;
          indicator_router_hlcv ind (payload_params payload)
            (_as_nd high) (_as_nd low) (_as_nd close) (_as_nd volume)
      | None, _, Some close, Some volume =>
          _ ← required_indicator payload;
          indicator_router_cv ind (_as_nd close) (_as_nd volume)
      | _, _, _, _ => malformed_request
      end
  end.

(** [rsi(req)], the legacy endpoint; the request model has already
    checked that there are two values or more. *)
Definition rsi `{TALib} (values : list float) (period : Z)
    : outcome (list (option float)) :=
  out ← talib_RSI (_as_nd values) period;
  Return (_nan_to_none (items out)).

Definition warmup_bars : TALibBars :=
  {| talib_ADX := fun _ _ c _ => Return (warmup c);
     talib_STOCH := fun _ _ c _ _ _ _ _ => Return (warmup c, warmup c);
     talib_AROON := fun h _ _ => Return (warmup h, warmup h);
     talib_AROONOSC := fun h _ _ => Return (warmup h);
     talib_WILLR := fun _ _ c _ => Return (warmup c);
     talib_CCI := fun _ _ c _ => Return (warmup c);
     talib_NATR := fun _ _ c _ => Return (warmup c);
     talib_MFI := fun _ _ c _ _ => Return (warmup c);
     talib_AD := fun _ _ c _ => Return (warmup c);
     talib_ADOSC := fun _ _ c _ _ _ => Return (warmup c);
     talib_OBV := fun c _ => Return (warmup c) |}.

(** A payload of integers, for concrete inputs. *)
Definition floats (zs : list Z) : list float := F64.of_Z <$> zs.

Definition payload_of (ind : option string)
    (ps high low close volume : option (list Z)) : Payload :=
  {| pl_indicator := IndStr <$> ind;
     pl_prices := floats <$> ps;
     pl_high := floats <$> high;
     pl_low := floats <$> low;
     pl_close := floats <$> close;
     pl_volume := floats <$> volume;
     pl_params := None |}.

Definition route (payload : Payload) : outcome (list (option float)) :=
  @indicator_router decimal_builtins two_pass_pandas warmup_talib warmup_bars
    payload.

(** No entry of a response is a NaN. *)
Definition nan_free (V : list (option float)) : Prop :=
  forall (i : nat) v, V !! i = Some (Some v) -> F64.isnan v = false.

(** The names the close-only path knows. *)
Definition close_only_names : list string :=
  [ "CURRENT_PRICE"; "PRICE"; "CLOSE"; "LAST"; "RSI"; "SMA"; "EMA";
    "MACD"; "MACD_HIST"; "MACD-HIST"; "MACD_LINE"; "MACD_SIGNAL";
    "PPO"; "PPO_LINE"; "PPO_SIGNAL"; "PPO_HIST";
    "BBANDS_UPPER"; "BBANDS_MIDDLE"; "BBANDS_LOWER";
    "CUMULATIVE_RETURN"; "VOLATILITY" ]%string.

(** The payload with another spelling of the indicator. *)
Definition with_indicator (payload : Payload) (s : string) : Payload :=
  {| pl_indicator := Some (IndStr s);
     pl_prices := pl_prices payload;
     pl_high := pl_high payload;
     pl_low := pl_low payload;
     pl_close := pl_close payload;
     pl_volume := pl_volume payload;
     pl_params := pl_params payload |}.

(** The request with other raw returns, or another equity curve. *)
Definition with_returns (req : QuantStatsRequest) (r : option (list float))
    : QuantStatsRequest :=
  {| returns := r; equity := equity req;
     risk_free_rate := risk_free_rate req; period := period req;
     confidence := confidence req |}.

Definition with_equity (req : QuantStatsRequest) (e : option (list float))
    : QuantStatsRequest :=
  {| returns := returns req; equity := e;
     risk_free_rate := risk_free_rate req; period := period req;
     confidence := confidence req |}.

(** A metrics request that carries an equity curve only. *)
Definition equity_request (e : list Z) : QuantStatsRequest :=
  {| returns := None; equity := Some (floats e);
     risk_free_rate := F64.zero; period := "daily";
     confidence := F64.one |}.

(** A handler, or a statement of one, whose successful result is free
    of NaN. *)
Definition answers_nan_free (o : outcome (list (option float))) : Prop :=
  forall V, o = Return V -> nan_free V.

Definition returns_nan_free (s : stmt (list (option float))) : Prop :=
  forall V, s = Return (Some V) -> nan_free V.

(** The names the bar-based paths know. *)
Definition hlc_names : list string :=
  [ "ADX"; "STOCH_K"; "AROON_UP"; "AROON_DOWN"; "AROONOSC"; "WILLR"; "CCI";
    "NATR" ]%string.

Definition hlcv_names : list string := [ "MFI"; "AD"; "ADOSC" ]%string.

(** * Properties *)

(** ** Floating-point facts *)

Section float_facts.

Lemma isfinite_not_nan x : F64.isfinite x = true -> F64.isnan x = false.
Proof. by destruct x. Qed.

Lemma isnan_not_finite x : F64.isnan x = true -> F64.isfinite x = false.
Proof. by destruct x. Qed.

Lemma isinf_not_finite x : F64.isinf x = true -> F64.isfinite x = false.
Proof. by destruct x. Qed.

Lemma isfinite_alt x : F64.isfinite x = negb (F64.isnan x || F64.isinf x).
Proof. by destruct x. Qed.

(** [x == 0] holds exactly for the two signed zeros. *)
Lemma eqb_zero_inv x : F64.eqb x F64.zero = true -> exists s, x = S754_zero s.
Proof.
  destruct x as [s|s| |s m e]; cbn; try discriminate; eauto.
  - by destruct s.
  - by destruct s.
Qed.

(** Nothing finite comes out of a NaN denominator. *)
Lemma div_nan_r x : F64.div x F64.nan = F64.nan.
Proof. by destruct x. Qed.

Lemma sub_nan_l y : F64.sub F64.nan y = F64.nan.
Proof. done. Qed.

Lemma mul_nan_l y : F64.mul F64.nan y = F64.nan.
Proof. done. Qed.

(** Nor out of a zero denominator: the quotient is an infinity or NaN. *)
Lemma change_over_zero_not_finite c p :
  F64.eqb p F64.zero = true ->
  F64.isfinite (F64.sub (F64.div c p) F64.one) = false.
Proof.
  intros [s ->]%eqb_zero_inv.
  destruct c as [sc|sc| |sc mc ec]; try done; by destruct sc, s.
Qed.

End float_facts.

(** ** Slices *)

Section slices.
Context {A : Type}.
Implicit Types a : list A.

Lemma py_slice_drop_first a : py_slice (Some 1) None a = drop 1 a.
Proof.
  unfold py_slice, slice_index; cbn [from_option].
  destruct a as [|x a]; [done|].
  replace (1 <? 0) with false by done.
  rewrite Z.min_l by (rewrite length_cons; lia).
  replace (Z.to_nat 1) with 1%nat by lia.
  apply take_ge. rewrite length_drop. lia.
Qed.

Lemma py_slice_drop_last a :
  py_slice None (Some (-1)) a = take (length a - 1) a.
Proof.
  unfold py_slice, slice_index; cbn [from_option].
  replace (-1 <? 0) with true by done.
  rewrite drop_0. f_equal. lia.
Qed.

(** [a[lo:-1]] for a bound inside the array. *)
Lemma py_slice_from_to_last a (lo : Z) :
  0 <= lo ->
  py_slice (Some lo) (Some (-1)) a
  = take (length a - 1 - Z.to_nat lo) (drop (Z.to_nat lo) a).
Proof.
  intros Hlo. unfold py_slice, slice_index; cbn [from_option].
  destruct (Z.ltb_spec lo 0); [lia|].
  replace (-1 <? 0) with true by done.
  destruct (decide (Z.of_nat (length a) <= lo)) as [Hge|Hlt].
  - rewrite Z.min_r by lia.
    rewrite !drop_ge by lia. by rewrite !take_nil.
  - rewrite Z.min_l by lia. f_equal. lia.
Qed.

End slices.

(** ** Numeric sanitizer *)



Lemma nan_to_none_items (a : list float) (i : nat) :
  _nan_to_none (items a) !! i
  = (fun v => if F64.isnan v then None else Some v) <$> a !! i.
Proof.
  unfold _nan_to_none, items. rewrite !list_lookup_fmap.
  by destruct (a !! i).
Qed.

Lemma nan_to_none_items_length (a : list float) :
  length (_nan_to_none (items a)) = length a.
Proof. unfold _nan_to_none, items. by rewrite !length_fmap. Qed.



(** ** Return/equity normaliser *)

Lemma spec_return_at_cons x l (i : nat) :
  spec_return_at (x :: l) (S i) = spec_return_at l i.
Proof. done. Qed.

Lemma omap_spec_return_shift x l (j n : nat) :
  omap (spec_return_at (x :: l)) (seq (S j) n)
  = omap (spec_return_at l) (seq j n).
Proof.
  revert j. induction n as [|n IH]; intros j; [done|].
  cbn [seq omap list_omap]. rewrite spec_return_at_cons.
  change (list_omap ?f ?l) with (omap f l). by rewrite IH.
Qed.

(** The masked pairwise quotients, read off a list and its head. *)
Lemma pairwise_returns_spec x (l : list float) :
  filter (fun r => F64.isfinite r = true)
    (zip_with (fun c p => F64.sub (F64.div c p) F64.one) l
       ((fun p => if F64.eqb p F64.zero then F64.nan else p)
          <$> take (length l) (x :: l)))
  = omap (spec_return_at (x :: l)) (seq 0 (length l)).
Proof.
  revert x. induction l as [|y l IH]; intros x; [done|].
  rewrite length_cons. cbn [take fmap list_fmap zip_with seq].
  change (list_fmap _ _ ?f ?l) with (f <$> l).
  rewrite filter_cons. cbn [omap list_omap].
  change (list_omap ?f ?l) with (omap f l).
  rewrite omap_spec_return_shift, <- IH.
  unfold spec_return_at at 1; cbn [lookup list_lookup].
  destruct (F64.eqb x F64.zero).
  - rewrite div_nan_r, sub_nan_l. by rewrite decide_False by done.
  - destruct (F64.isfinite _) eqn:Hfin.
    + by rewrite decide_True by done.
    + by rewrite decide_False by done.
Qed.

(** Masking the zero denominators changes nothing that survives the
    finiteness filter. *)
Lemma masked_changes_filter (l k : list float) :
  filter (fun r => F64.isfinite r = true)
    (zip_with (fun c p => F64.sub (F64.div c p) F64.one) l
       ((fun p => if F64.eqb p F64.zero then F64.nan else p) <$> k))
  = filter (fun r => F64.isfinite r = true)
      (zip_with (fun c p => F64.sub (F64.div c p) F64.one) l k).
Proof.
  revert k. induction l as [|c l IH]; intros [|p k]; try done.
  cbn [fmap list_fmap zip_with].
  change (list_fmap _ _ ?f ?l) with (f <$> l).
  rewrite !filter_cons, IH.
  destruct (F64.eqb p F64.zero) eqn:Hz; [|done].
  rewrite div_nan_r, sub_nan_l, decide_False by done.
  by rewrite decide_False by (by rewrite change_over_zero_not_finite).
Qed.

(** C6: the returns derived from an equity curve are the pairwise
    changes [equity[i+1]/equity[i] - 1] taken in order, without the
    observations whose denominator is zero or whose value is not finite;
    every retained value is finite, and the retained values are a
    subsequence of all the pairwise changes. *)
Theorem equity_to_returns_spec (eq : list float) :
  _equity_to_returns eq = spec_equity_returns eq
  /\ Forall (fun r => F64.isfinite r = true) (_equity_to_returns eq)
  /\ _equity_to_returns eq `sublist_of` pairwise_changes eq.
Proof.
  assert (Heq : _equity_to_returns eq = spec_equity_returns eq).
  { unfold _equity_to_returns, spec_equity_returns.
    destruct eq as [|x l]; [done|].
    destruct l as [|y l]; [done|].
    replace (length (x :: y :: l) <? 2)%nat with false
      by (symmetry; apply Nat.ltb_ge; rewrite !length_cons; lia).
    rewrite py_slice_drop_first, py_slice_drop_last.
    replace (length (x :: y :: l) - 1)%nat with (length (y :: l))
      by (rewrite !length_cons; lia).
    change (drop 1 (x :: y :: l)) with (y :: l).
    apply pairwise_returns_spec. }
  split_and!; [done| |].
  - unfold _equity_to_returns. destruct (_ <? _)%nat; [done|].
    apply Forall_forall. intros r Hr.
    by apply list_elem_of_filter in Hr as [? _].
  - unfold _equity_to_returns, pairwise_changes.
    destruct (_ <? _)%nat; [apply sublist_nil_l|].
    rewrite py_slice_drop_first, py_slice_drop_last, masked_changes_filter.
    apply sublist_filter.
Qed.

(** The test suite's equity curve yields its seven pairwise returns. *)
Example equity_path_example :
  length (_equity_to_returns
            (F64.of_Z <$> [100; 103; 101; 105; 108; 104; 109; 107])) = 7%nat.
Proof. vm_compute. reflexivity. Qed.






(** ** Integers that convert exactly *)

Section of_Z_finite.

Lemma digits2_pos_lower m : 2 ^ (Zpos (digits2_pos m) - 1) <= Zpos m.
Proof.
  induction m as [m IH|m IH|]; cbn [digits2_pos]; [| |done];
    rewrite Pos2Z.inj_succ;
    replace (Z.succ (Zpos (digits2_pos m)) - 1)
      with (Z.succ (Zpos (digits2_pos m) - 1)) by lia;
    rewrite Z.pow_succ_r by lia; lia.
Qed.

Lemma digits2_pos_bound m k :
  0 <= k -> Zpos m < 2 ^ k -> Zpos (digits2_pos m) <= k.
Proof.
  intros Hk Hm. pose proof (digits2_pos_lower m) as Hl.
  destruct (Z.le_gt_cases (Zpos (digits2_pos m)) k) as [|Hgt]; [done|].
  assert (2 ^ k <= 2 ^ (Zpos (digits2_pos m) - 1))
    by (apply Z.pow_le_mono_r; lia).
  lia.
Qed.

Lemma digits2_pos_iter_xO m k :
  digits2_pos (Pos.iter xO m k) = (digits2_pos m + k)%positive.
Proof.
  induction k as [|k IH] using Pos.peano_ind.
  - cbn. lia.
  - rewrite Pos.iter_succ. cbn [digits2_pos]. rewrite IH. lia.
Qed.

(** A mantissa below 2^53 is only shifted into place, never rounded. *)
Lemma binary_round_small_finite s m :
  Zpos m < 2 ^ 53 ->
  exists m' e', binary_round F64.prec F64.emax s m 0 = S754_finite s m' e'.
Proof.
  intros Hm. pose proof (digits2_pos_bound m 53 ltac:(lia) Hm) as Hd.
  unfold F64.prec, F64.emax, binary_round, shl_align, fexp, emin.
  set (d := Zpos (digits2_pos m)) in *.
  replace (Z.max (d + 0 - 53) (3 - 1024 - 53) - 0) with (d - 53) by lia.
  replace (Z.max (d + 0 - 53) (3 - 1024 - 53)) with (d - 53) by lia.
  destruct (d - 53) as [|p|p] eqn:Hp; try lia.
  - unfold binary_round_aux, shr_fexp, fexp, emin.
    cbn [Zdigits2 shr_record_of_loc]. fold d.
    replace (Z.max (d + 0 - 53) (3 - 1024 - 53) - 0) with 0 by lia.
    cbn [shr shr_m loc_of_shr_record round_nearest_even Zdigits2]. fold d.
    replace (Z.max (d + 0 - 53) (3 - 1024 - 53) - 0) with 0 by lia.
    cbn. eauto.
  - unfold binary_round_aux, shr_fexp, fexp, emin.
    cbn [Zdigits2 shr_record_of_loc].
    rewrite digits2_pos_iter_xO. fold d.
    replace (Z.max (Zpos (digits2_pos m + p) + Zneg p - 53) (3 - 1024 - 53)
             - Zneg p) with 0 by lia.
    cbn [shr shr_m loc_of_shr_record round_nearest_even Zdigits2].
    rewrite digits2_pos_iter_xO.
    replace (Z.max (Zpos (digits2_pos m + p) + Zneg p - 53) (3 - 1024 - 53)
             - Zneg p) with 0 by lia.
    cbn [shr shr_m].
    replace (Zneg p <=? 1024 - 53) with true
      by (symmetry; apply Z.leb_le; lia).
    eauto.
Qed.

Lemma of_Z_small_finite z :
  0 <= z < 2 ^ 53 -> F64.isfinite (F64.of_Z z) = true.
Proof.
  intros Hz. unfold F64.of_Z, binary_normalize.
  destruct z as [|m|m]; [done| |lia].
  destruct (binary_round_small_finite false m) as (m' & e' & ->); [lia|done].
Qed.

End of_Z_finite.

(** ** Metrics aggregator *)

Section aggregator.
Implicit Types (metrics : gmap string (option float)) (name : string).
Implicit Types fn : outcome pyvalue.

Lemma float_of_int_finite z x :
  float_of_int z = Return x -> F64.isfinite x = true.
Proof.
  unfold float_of_int. destruct (F64.isfinite (F64.of_Z z)) eqn:Hfin; [|done].
  by intros [= <-].
Qed.

(** Whatever [capture] stores is the null marker or a finite float. *)
Lemma capture_try_finite fn v :
  capture_try fn = Return (Some v) -> F64.isfinite v = true.
Proof.
  unfold capture_try. destruct fn as [value| |]; [|done..]. cbn.
  assert (Hscalar : forall w : pyvalue,
    match w with
    | NpFloating x => Return (PyFloat x)
    | NpInteger z => PyFloat <$> float_of_int z
    | _ => Return w
    end ≫= (fun value : pyvalue =>
      match value with
      | PyFloat x => if F64.isfinite x then Return (Some x) else Return None
      | PyInt z =>
          float_of_int z ≫= fun x =>
            if F64.isfinite x then Some <$> float_of_int z else Return None
      | _ => Return None
      end) = Return (Some v) -> F64.isfinite v = true).
  { intros [x|z|x|z|elts| |]; cbn; try done.
    - destruct (F64.isfinite x) eqn:Hx; [|done]. by intros [= <-].
    - destruct (float_of_int z) as [x| |] eqn:Hz; cbn; try done.
      destruct (F64.isfinite x); cbn; [|done].
      intros [= <-]. by eapply float_of_int_finite.
    - destruct (F64.isfinite x) eqn:Hx; [|done]. by intros [= <-].
    - destruct (float_of_int z) as [x| |] eqn:Hz; cbn; try done.
      destruct (F64.isfinite x) eqn:Hx; [|done]. by intros [= <-]. }
  destruct value as [x|z|x|z|[|w elts]| |]; try apply Hscalar; done.
Qed.

Lemma captured_finite fn v : captured fn = Some v -> F64.isfinite v = true.
Proof.
  unfold captured. destruct (capture_try fn) as [e| |] eqn:He; try done.
  intros ->. by eapply capture_try_finite.
Qed.

Lemma capture_insert metrics name fn :
  capture metrics name fn = <[name := captured fn]> metrics.
Proof. unfold capture, captured. by destruct (capture_try fn). Qed.

Lemma capture_lookup_eq metrics name fn :
  capture metrics name fn !! name = Some (captured fn).
Proof. by rewrite capture_insert, lookup_insert_eq. Qed.

Lemma capture_lookup_ne metrics name name' fn :
  name <> name' -> capture metrics name fn !! name' = metrics !! name'.
Proof. intros. by rewrite capture_insert, lookup_insert_ne. Qed.

(** A statistic that raises leaves the null marker. *)
Lemma captured_raises fn : (forall a, fn <> Return a) -> captured fn = None.
Proof.
  unfold captured, capture_try. destruct fn as [a| |]; [|done..].
  intros H. by destruct (H a).
Qed.

(** A float result, Python's or NumPy's, is kept exactly when finite. *)
Lemma captured_float fn x :
  fn = Return (PyFloat x) \/ fn = Return (NpFloating x) ->
  captured fn = if F64.isfinite x then Some x else None.
Proof.
  unfold captured, capture_try.
  intros [-> | ->]; cbn; by destruct (F64.isfinite x).
Qed.

End aggregator.

Ltac battery_lookup :=
  unfold quantstats_battery;
  repeat first [ rewrite capture_lookup_eq
               | rewrite capture_lookup_ne by done ].

(** C7: every one of the sixteen statistics is stored under its own
    name, with the value [capture] derives from that statistic alone; a
    statistic that raises, or whose value is NaN or infinite, leaves the
    null marker under its name and nothing else changes; and (for an
    array short enough for its length to convert exactly) no entry of
    the report is a NaN or an infinity. *)
Theorem battery_failure_isolation `{QuantStats}
    (series calmar_series : Series) (periods_per_year : Z) (conf : float) :
  Z.of_nat (length (values series)) < 2 ^ 53 ->
  let metrics := quantstats_battery series calmar_series periods_per_year conf in
  let calls := battery_calls series calmar_series periods_per_year conf in
  length calls = 16%nat
  /\ NoDup ("qs_sample_size"%string :: calls.*1)
  /\ dom metrics = list_to_set ("qs_sample_size"%string :: calls.*1)
  /\ Forall (fun '(name, fn) =>
       metrics !! name = Some (captured fn)
       /\ ((forall a, fn <> Return a) -> metrics !! name = Some None)
       /\ (forall x, fn = Return (PyFloat x) \/ fn = Return (NpFloating x) ->
           metrics !! name = Some (if F64.isfinite x then Some x else None)))
       calls
  /\ forall name v, metrics !! name = Some (Some v) -> F64.isfinite v = true.
Proof.
  intros Hsize metrics calls. split_and!.
  - done.
  - cbn. by apply (bool_decide_unpack _).
  - unfold metrics, quantstats_battery. rewrite !capture_insert.
    rewrite !dom_insert_L, dom_singleton_L. cbn. set_solver.
  - assert (Hone : forall name fn,
      metrics !! name = Some (captured fn) ->
      metrics !! name = Some (captured fn)
      /\ ((forall a, fn <> Return a) -> metrics !! name = Some None)
      /\ (forall x, fn = Return (PyFloat x) \/ fn = Return (NpFloating x) ->
          metrics !! name = Some (if F64.isfinite x then Some x else None))).
    { intros name fn Hl. split_and!; [done| |].
      - intros Hr. by rewrite Hl, captured_raises.
      - intros x Hx. by rewrite Hl, (captured_float _ x). }
    unfold calls, battery_calls.
    repeat apply Forall_cons_2; [..|apply Forall_nil_2];
      apply Hone; unfold metrics; by battery_lookup.
  - assert (Hall : map_Forall
      (fun _ (e : option float) => forall v, e = Some v -> F64.isfinite v = true)
      metrics).
    { unfold metrics, quantstats_battery. rewrite !capture_insert.
      repeat (apply map_Forall_insert_2; [intros v; apply captured_finite|]).
      apply map_Forall_singleton. intros v [= <-].
      apply of_Z_small_finite. lia. }
    intros name v Hl. by apply (Hall name (Some v)).
Qed.

(** C7 on the sample library: the infinite Calmar ratio, the failing
    Omega and the NaN skew are null, the others are present. *)
Lemma battery_failure_isolation_witness :
  let series := {| values := F64.of_Z <$> [1; 2; 3]; freq := "D" |} in
  let metrics := @quantstats_battery sample_quantstats series series 252
                   (F64.of_Z 1) in
  metrics !! "qs_calmar"%string = Some None
  /\ metrics !! "qs_omega"%string = Some None
  /\ metrics !! "qs_skew"%string = Some None
  /\ metrics !! "qs_avg_drawdown_days"%string = Some (Some (F64.of_Z 3))
  /\ forall name v, metrics !! name = Some (Some v) -> F64.isfinite v = true.
Proof.
  intros series metrics.
  split_and!; [by vm_compute..|].
  apply (@battery_failure_isolation sample_quantstats series series 252
           (F64.of_Z 1)).
  vm_compute. reflexivity.
Defined.

(** ** Built-in string methods on ASCII text *)

Section ascii_text.
Context `{PyBuiltins}.

Lemma upper_empty : upper EmptyString = EmptyString.
Proof. by rewrite upper_ascii. Qed.

Lemma lower_empty : lower EmptyString = EmptyString.
Proof. by rewrite lower_ascii. Qed.

Lemma strip_empty : strip EmptyString = EmptyString.
Proof. by rewrite strip_ascii. Qed.

End ascii_text.

(** ** Period resolver *)

Section resolver.
Context `{PyBuiltins}.

Lemma resolve_nonempty (label : string) :
  label <> EmptyString ->
  _resolve_period_settings (Some label)
  = match _PERIOD_SETTINGS !! lower (strip label) with
    | Some setting => Return setting
    | None =>
        r ← try_except
              (x ← py_float_str (lower (strip label));
               periods ← int_of_float x;
               if 0 <? periods then Return (Some ("D"%string, periods))
               else Return None)
              [TypeError; ValueError]
              (Return None);
        match r with
        | Some setting => Return setting
        | None => Return ("D"%string, 252)
        end
    end.
Proof. by destruct label. Qed.

Lemma resolve_recognised (label : string) (names : list string) setting :
  lower (strip label) ∈ names ->
  Forall (fun n => n <> EmptyString /\ _PERIOD_SETTINGS !! n = Some setting)
    names ->
  _resolve_period_settings (Some label) = Return setting.
Proof.
  intros Hin Hall.
  destruct (proj1 (Forall_forall _ _) Hall _ Hin) as [Hne Hl].
  rewrite resolve_nonempty
    by (intros ->; apply Hne; by rewrite strip_empty, lower_empty).
  by rewrite Hl.
Qed.

End resolver.

(** C8, as stated, fails in three ways on the decimal reading of text:
    a positive number below one falls back to the default, a fractional
    count is truncated rather than returned, and text that denotes an
    infinity is not caught by the handler and escapes as an
    [OverflowError]. *)
Lemma resolve_period_deviations :
  decimal_float_of_str "0.5" = Some (F64.div F64.one (F64.of_Z 2))
  /\ @_resolve_period_settings decimal_builtins (Some "0.5"%string)
     = Return ("D"%string, 252)
  /\ @_resolve_period_settings decimal_builtins (Some "2.7"%string)
     = Return ("D"%string, 2)
  /\ decimal_float_of_str "inf" = Some (S754_infinity false)
  /\ @_resolve_period_settings decimal_builtins (Some "inf"%string)
     = Raise OverflowError.
Proof. split_and!; by vm_compute. Qed.

(** C8 (amended): on an absent or empty label the resolver returns
    (D, 252); a label that is, once trimmed and lower-cased, one of the
    fifteen recognised names returns the pair of that name; any other
    label returns (D, n) when it reads as a finite number whose integer
    part n (truncation towards zero) is positive, and (D, 252) when it
    does not read as a number, reads as NaN, or has an integer part that
    is zero or negative.  (Text that reads as an infinity is not
    covered.) *)
Theorem resolve_period_settings_spec `{PyBuiltins} (label : string) :
  let key := lower (strip label) in
  let resolved := _resolve_period_settings (Some label) in
  _resolve_period_settings None = Return ("D"%string, 252)
  /\ _resolve_period_settings (Some EmptyString) = Return ("D"%string, 252)
  /\ (key ∈ ["daily"; "day"; "1d"]%string -> resolved = Return ("D"%string, 252))
  /\ (key ∈ ["weekly"; "week"; "1w"]%string -> resolved = Return ("W"%string, 52))
  /\ (key ∈ ["monthly"; "month"; "1m"]%string -> resolved = Return ("M"%string, 12))
  /\ (key ∈ ["quarterly"; "quarter"; "1q"]%string ->
      resolved = Return ("Q"%string, 4))
  /\ (key ∈ ["yearly"; "annual"; "1y"]%string -> resolved = Return ("Y"%string, 1))
  /\ (label <> EmptyString -> _PERIOD_SETTINGS !! key = None ->
      (float_of_str key = None -> resolved = Return ("D"%string, 252))
      /\ (forall x, float_of_str key = Some x -> F64.isnan x = true ->
            resolved = Return ("D"%string, 252))
      /\ (forall x, float_of_str key = Some x -> F64.isfinite x = true ->
            0 < F64.trunc x -> resolved = Return ("D"%string, F64.trunc x))
      /\ (forall x, float_of_str key = Some x -> F64.isfinite x = true ->
            F64.trunc x <= 0 -> resolved = Return ("D"%string, 252))).
Proof.
  intros key resolved. split_and!; try done.
  - intros Hin. eapply resolve_recognised; [exact Hin|].
    by repeat constructor.
  - intros Hin. eapply resolve_recognised; [exact Hin|].
    by repeat constructor.
  - intros Hin. eapply resolve_recognised; [exact Hin|].
    by repeat constructor.
  - intros Hin. eapply resolve_recognised; [exact Hin|].
    by repeat constructor.
  - intros Hin. eapply resolve_recognised; [exact Hin|].
    by repeat constructor.
  - intros Hne Hkey. unfold resolved.
    rewrite resolve_nonempty by done. fold key. rewrite Hkey.
    unfold py_float_str, int_of_float. split_and!.
    + by intros ->.
    + intros x -> Hx. cbn. by rewrite Hx.
    + intros x -> Hfin Hpos. cbn.
      rewrite (isfinite_not_nan _ Hfin).
      replace (F64.isinf x) with false by (by destruct x).
      cbn. by replace (0 <? F64.trunc x) with true
        by (symmetry; by apply Z.ltb_lt).
    + intros x -> Hfin Hpos. cbn.
      rewrite (isfinite_not_nan _ Hfin).
      replace (F64.isinf x) with false by (by destruct x).
      cbn. by replace (0 <? F64.trunc x) with false
        by (symmetry; apply Z.ltb_ge; lia).
Qed.

(** The labels of the test suite and a numeric label, on the decimal
    reading of text. *)
Example resolve_period_examples :
  @_resolve_period_settings decimal_builtins (Some "daily"%string)
  = Return ("D"%string, 252)
  /\ @_resolve_period_settings decimal_builtins (Some "  Weekly "%string)
     = Return ("W"%string, 52)
  /\ @_resolve_period_settings decimal_builtins (Some "1Y"%string)
     = Return ("Y"%string, 1)
  /\ @_resolve_period_settings decimal_builtins (Some "26"%string)
     = Return ("D"%string, 26)
  /\ @_resolve_period_settings decimal_builtins (Some "fortnightly"%string)
     = Return ("D"%string, 252)
  /\ @_resolve_period_settings decimal_builtins (Some "-4"%string)
     = Return ("D"%string, 252)
  /\ @_resolve_period_settings decimal_builtins (Some "nan"%string)
     = Return ("D"%string, 252).
Proof. split_and!; by vm_compute. Qed.

(** ** Indicator dispatcher *)

Section statements.
Context {A : Type}.
Implicit Types (s rest : stmt A) (m : outcome A).

Lemma stmt_seq_skip s rest : (py_if false s >> rest) = rest.
Proof. done. Qed.

Lemma stmt_seq_returned m rest : (py_if true (Some <$> m) >> rest) = Some <$> m.
Proof. by destruct m. Qed.

Lemma stmt_end_returned m (fallback : outcome A) :
  (Some <$> m >>| fallback) = m.
Proof. by destruct m. Qed.

End statements.

(** Decides the tests of the dispatcher once the indicator is known. *)
Ltac decide_names :=
  repeat match goal with
         | |- context [is_in ?a ?l] =>
             let b := eval vm_compute in (is_in a l) in
             change (is_in a l) with b
         | |- context [bool_decide (?a = ?b :> string)] =>
             let r := eval vm_compute in (bool_decide (a = b)) in
             change (bool_decide (a = b)) with r
         end.

Section dispatcher.
Context `{PyBuiltins} `{Pandas} `{TALib}.
Implicit Types req : CloseOnlyReq.

Lemma close_only_gate req :
  (length (prices req) < 2)%nat ->
  indicator_router_close_only req
  = HTTPException 400 "prices must contain at least 2 values".
Proof.
  intros Hn. unfold indicator_router_close_only, _as_nd.
  by replace (length (prices req) <? 2)%nat with true
    by (symmetry; by apply Nat.ltb_lt).
Qed.

Lemma close_only_current_price req :
  (2 <= length (prices req))%nat ->
  indicator_name (Some (indicator req))
    ∈ ["CURRENT_PRICE"; "PRICE"; "CLOSE"; "LAST"]%string ->
  indicator_router_close_only req = Return (_nan_to_none (items (prices req))).
Proof.
  intros Hn Hind. unfold indicator_router_close_only, _as_nd.
  replace (length (prices req) <? 2)%nat with false
    by (symmetry; by apply Nat.ltb_ge).
  cbv zeta. set_unfold in Hind.
  destruct Hind as [-> | [-> | [-> | [-> | []]]]]; by decide_names.
Qed.

Lemma close_only_cumulative_return req :
  (2 <= length (prices req))%nat ->
  indicator_name (Some (indicator req)) = "CUMULATIVE_RETURN"%string ->
  indicator_router_close_only req = cumulative_return (prices req).
Proof.
  intros Hn Hind. unfold indicator_router_close_only, _as_nd.
  replace (length (prices req) <? 2)%nat with false
    by (symmetry; by apply Nat.ltb_ge).
  cbv zeta. rewrite Hind. decide_names.
  rewrite !stmt_seq_skip, stmt_seq_returned. apply stmt_end_returned.
Qed.

Lemma close_only_volatility req :
  (2 <= length (prices req))%nat ->
  indicator_name (Some (indicator req)) = "VOLATILITY"%string ->
  indicator_router_close_only req = volatility req (prices req).
Proof.
  intros Hn Hind. unfold indicator_router_close_only, _as_nd.
  replace (length (prices req) <? 2)%nat with false
    by (symmetry; by apply Nat.ltb_ge).
  cbv zeta. rewrite Hind. decide_names.
  rewrite !stmt_seq_skip.
  change (py_if true ?s) with s. apply stmt_end_returned.
Qed.

End dispatcher.

(** ** Array assignment *)

Lemma np_assign_from_exact (start : Z) (dst src : list float) :
  0 <= start <= Z.of_nat (length dst) ->
  length src = (length dst - Z.to_nat start)%nat ->
  np_assign_from start dst src = Return (take (Z.to_nat start) dst ++ src).
Proof.
  intros Hs Hlen. unfold np_assign_from, slice_index.
  replace (start <? 0) with false by (symmetry; apply Z.ltb_ge; lia).
  rewrite Z.min_l by lia. by rewrite bool_decide_eq_true_2.
Qed.

Lemma np_assign_from_mismatch (start : Z) (dst src : list float) :
  0 <= start <= Z.of_nat (length dst) ->
  length src <> (length dst - Z.to_nat start)%nat ->
  length src <> 1%nat ->
  np_assign_from start dst src = Raise ValueError.
Proof.
  intros Hs Hlen Hone. unfold np_assign_from, slice_index.
  replace (start <? 0) with false by (symmetry; apply Z.ltb_ge; lia).
  rewrite Z.min_l by lia. rewrite bool_decide_eq_false_2 by done.
  by destruct src as [|? [|? ?]].
Qed.

(** ** Cumulative return *)

Lemma cumulative_return_zero (ps : list float) p0 :
  ps !! 0%nat = Some p0 -> F64.eqb p0 F64.zero = true ->
  cumulative_return ps = HTTPException 400 "Invalid prices for cumulative return".
Proof.
  intros Hp0 Hz. unfold cumulative_return.
  destruct ps as [|q rest]; [done|]. injection Hp0 as ->.
  cbn [lookup_total list_lookup_total]. rewrite Hz. by rewrite orb_true_r.
Qed.

Lemma cumulative_return_nonzero (ps : list float) p0 :
  ps !! 0%nat = Some p0 -> F64.eqb p0 F64.zero = false ->
  cumulative_return ps = Return (spec_cumulative_return ps).
Proof.
  intros Hp0 Hz. unfold cumulative_return.
  destruct ps as [|q rest]; [done|]. injection Hp0 as ->.
  cbn [lookup_total list_lookup_total]. rewrite Hz.
  replace (length (p0 :: rest) <? 1)%nat with false by done.
  cbn [orb].
  assert (Hbody :
    (if (1 <? length (p0 :: rest))%nat
     then np_assign_from 1 (replicate (length (p0 :: rest)) F64.nan)
            ((fun p => F64.sub (F64.div p p0) F64.one)
               <$> py_slice None (Some (-1)) (p0 :: rest))
     else Return (replicate (length (p0 :: rest)) F64.nan))
    = Return (F64.nan :: ((fun p => F64.sub (F64.div p p0) F64.one)
                            <$> take (length rest) (p0 :: rest)))).
  { rewrite py_slice_drop_last.
    replace (length (p0 :: rest) - 1)%nat with (length rest)
      by (rewrite length_cons; lia).
    destruct rest as [|r rest]; [done|].
    replace (1 <? length (p0 :: r :: rest))%nat with true by done.
    rewrite np_assign_from_exact.
    - done.
    - rewrite length_replicate, !length_cons. lia.
    - rewrite length_fmap, length_take, length_replicate, !length_cons. lia. }
  rewrite Hbody. cbn [mbind outcome_bind]. f_equal.
  cbn [insert list_insert].
  apply list_eq. intros [|i].
  { done. }
  rewrite nan_to_none_items. unfold spec_cumulative_return.
  change ((?x :: ?l) !! S ?j) with (l !! j).
  rewrite !list_lookup_fmap.
  destruct (decide (i < length rest)%nat) as [Hi|Hi].
  - rewrite lookup_take_lt by done.
    rewrite length_cons, (lookup_seq_lt 0 _ (S i)) by lia.
    destruct (lookup_lt_is_Some_2 (p0 :: rest) i) as [p Hp];
      [rewrite length_cons; lia|].
    rewrite Hp. cbn. f_equal.
    by rewrite (list_lookup_total_correct _ _ _ Hp).
  - rewrite lookup_take_ge by lia.
    by rewrite length_cons, (lookup_seq_ge 0 _ (S i)) by lia.
Qed.

(** ** Rolling volatility *)

Section simple_returns_facts.
Implicit Types ps : list float.

Lemma simple_returns_cons x y ps :
  simple_returns (x :: y :: ps)
  = F64.div (F64.sub y x) x :: simple_returns (y :: ps).
Proof.
  unfold simple_returns, np_diff.
  rewrite !py_slice_drop_first, !py_slice_drop_last.
  replace (length (x :: y :: ps) - 1)%nat with (S (length ps))
    by (rewrite !length_cons; lia).
  replace (length (y :: ps) - 1)%nat with (length ps)
    by (rewrite !length_cons; lia).
  done.
Qed.

Lemma simple_returns_lookup ps (j : nat) :
  simple_returns ps !! j
  = a ← ps !! j; b ← ps !! S j; Some (F64.div (F64.sub b a) a).
Proof.
  revert j. induction ps as [|x ps IH]; intros j; [done|].
  destruct ps as [|y ps].
  { by destruct j. }
  rewrite simple_returns_cons. destruct j as [|j]; [done|].
  change ((?a :: ?l) !! S ?k) with (l !! k). by rewrite IH.
Qed.

Lemma simple_returns_length ps :
  length (simple_returns ps) = (length ps - 1)%nat.
Proof.
  induction ps as [|x ps IH]; [done|].
  destruct ps as [|y ps]; [done|].
  rewrite simple_returns_cons, !length_cons, IH, length_cons. lia.
Qed.

(** The return [d[j]] is a function of [P[j]] and [P[j+1]] alone. *)
Lemma simple_returns_agree ps ps' (j : nat) :
  ps !! j = ps' !! j -> ps !! S j = ps' !! S j ->
  simple_returns ps !! j = simple_returns ps' !! j.
Proof. intros Hj HSj. by rewrite !simple_returns_lookup, Hj, HSj. Qed.

End simple_returns_facts.

Section volatility_facts.
Context `{PyBuiltins} `{Pandas}.
Implicit Types (req : CloseOnlyReq) (ps d : list float).

Lemma rolling_std_negative (w : Z) d :
  w < 0 -> rolling_std w d = Raise ValueError.
Proof.
  intros Hw. unfold rolling_std.
  by replace (w <? 0) with true by (symmetry; by apply Z.ltb_lt).
Qed.

Lemma rolling_std_values (w : Z) d :
  0 <= w ->
  exists rv,
    rolling_std w d = Return rv
    /\ length rv = length d
    /\ forall j : nat, (j < length d)%nat ->
         rv !! j
         = Some (if (j + 1 <? Z.to_nat w)%nat then F64.nan
                 else window_std
                        (take (Z.to_nat w) (drop (j + 1 - Z.to_nat w) d))).
Proof.
  intros Hw. unfold rolling_std.
  replace (w <? 0) with false by (symmetry; by apply Z.ltb_ge).
  eexists. split; [done|]. split.
  - by rewrite length_fmap, length_seq.
  - intros j Hj. by rewrite list_lookup_fmap, lookup_seq_lt.
Qed.

(** A window of size zero holds no data. *)
Lemma rolling_std_zero d d' :
  length d = length d' -> rolling_std 0 d = rolling_std 0 d'.
Proof. intros Hlen. unfold rolling_std. cbn. by rewrite Hlen. Qed.

Lemma py_slice_empty {A} (a : Z) (l : list A) :
  py_slice (Some a) (Some a) l = [].
Proof.
  unfold py_slice; cbn [from_option]. by rewrite Z.sub_diag.
Qed.

Lemma annualized_lookup (annualize : bool) (rv : list float) (j : nat) :
  (if annualize then (fun v => F64.mul v sqrt_252) <$> rv else rv) !! j
  = annualized annualize <$> rv !! j.
Proof.
  destruct annualize; cbn.
  - by rewrite list_lookup_fmap.
  - by destruct (rv !! j).
Qed.

Lemma annualized_length (annualize : bool) (rv : list float) :
  length (if annualize then (fun v => F64.mul v sqrt_252) <$> rv else rv)
  = length rv.
Proof. destruct annualize; [apply length_fmap | done]. Qed.

Lemma annualized_nan annualize : annualized annualize F64.nan = F64.nan.
Proof. by destruct annualize. Qed.

(** Too few prices for the window: the branch's own 400. *)
Lemma volatility_short req ps (period : Z) annualize :
  int_param req "period" 20 = Return period ->
  annualize_requested req = Return annualize ->
  Z.of_nat (length ps) < period + 1 ->
  volatility req ps
  = HTTPException 400
      ("Need at least " +:+ pretty (period + 1)
       +:+ " prices for volatility calculation").
Proof.
  intros Hp Ha Hn. unfold volatility. rewrite Hp, Ha. cbn [mbind outcome_bind].
  by replace (Z.of_nat (length ps) <? period + 1) with true
    by (symmetry; by apply Z.ltb_lt).
Qed.

(** A window of two or more: the output is the lagged series. *)
Lemma volatility_lagged req ps (period : Z) annualize :
  int_param req "period" 20 = Return period ->
  annualize_requested req = Return annualize ->
  2 <= period ->
  period + 1 <= Z.of_nat (length ps) ->
  volatility req ps = Return (spec_volatility annualize (Z.to_nat period) ps).
Proof.
  intros Hp Ha Hper Hn. unfold volatility.
  rewrite Hp, Ha. cbn [mbind outcome_bind].
  replace (Z.of_nat (length ps) <? period + 1) with false
    by (symmetry; apply Z.ltb_ge; lia).
  destruct (rolling_std_values period (simple_returns ps)) as (rv & -> & Hlen & Hrv);
    [lia|].
  cbn [mbind outcome_bind].
  replace (period <? Z.of_nat (length ps)) with true
    by (symmetry; apply Z.ltb_lt; lia).
  rewrite simple_returns_length in Hlen, Hrv.
  set (p := Z.to_nat period) in *.
  set (n := length ps) in *.
  set (rvs := if annualize then _ else rv).
  assert (Hlens : length rvs = (n - 1)%nat)
    by (unfold rvs; by rewrite annualized_length).
  rewrite py_slice_from_to_last by lia.
  rewrite Hlens.
  replace (Z.to_nat (period - 2)) with (p - 2)%nat by lia.
  replace (n - 1 - 1 - (p - 2))%nat with (n - p)%nat by lia.
  rewrite np_assign_from_exact; cycle 1.
  { rewrite length_replicate. lia. }
  { rewrite length_take, length_drop, length_replicate, Hlens. lia. }
  cbn [mbind outcome_bind]. f_equal. fold p.
  rewrite take_replicate, Nat.min_l by lia.
  apply list_eq. intros i.
  rewrite nan_to_none_items. unfold spec_volatility.
  rewrite list_lookup_fmap. fold n.
  destruct (decide (i < n)%nat) as [Hi|Hi]; cycle 1.
  { rewrite lookup_seq_ge by lia.
    rewrite lookup_ge_None_2; [done|].
    rewrite length_app, length_replicate, length_take, length_drop, Hlens. lia. }
  rewrite lookup_seq_lt by done. cbn [fmap option_fmap option_map Nat.add].
  destruct (decide (i < p)%nat) as [Hip|Hip].
  { rewrite lookup_app_l by (rewrite length_replicate; lia).
    rewrite lookup_replicate_2 by done.
    by replace (i <? p + 1)%nat with true by (symmetry; apply Nat.ltb_lt; lia). }
  rewrite lookup_app_r by (rewrite length_replicate; lia).
  rewrite length_replicate, lookup_take_lt by lia.
  rewrite lookup_drop.
  replace (p - 2 + (i - p))%nat with (i - 2)%nat by lia.
  unfold rvs. rewrite annualized_lookup, Hrv by lia.
  cbn [fmap option_fmap option_map nan_to_none_item].
  replace (i - 2 + 1)%nat with (i - 1)%nat by lia.
  destruct (decide (i = p)) as [->|Hne].
  - replace (p - 1 <? p)%nat with true by (symmetry; apply Nat.ltb_lt; lia).
    replace (p <? p + 1)%nat with true by (symmetry; apply Nat.ltb_lt; lia).
    by rewrite annualized_nan.
  - replace (i - 1 <? p)%nat with false by (symmetry; apply Nat.ltb_ge; lia).
    by replace (i <? p + 1)%nat with false by (symmetry; apply Nat.ltb_ge; lia).
Qed.

End volatility_facts.

Section no_lookahead.
Context `{PyBuiltins} `{Pandas}.
Implicit Types (req : CloseOnlyReq) (ps : list float).

Lemma agree_upto_refl {A} (i : nat) (o : outcome (list A)) : agree_upto i o o.
Proof. by destruct o. Qed.

(** A window of one observation: the slice [rolling_vol[-1:-1]] is empty
    and cannot be assigned to [result[1:]]. *)
Lemma volatility_window_one req ps annualize :
  int_param req "period" 20 = Return 1 ->
  annualize_requested req = Return annualize ->
  (2 <= length ps)%nat ->
  volatility req ps = Raise ValueError.
Proof.
  intros Hp Ha Hn. unfold volatility. rewrite Hp, Ha. cbn [mbind outcome_bind].
  replace (Z.of_nat (length ps) <? 1 + 1) with false
    by (symmetry; apply Z.ltb_ge; lia).
  destruct (rolling_std_values 1 (simple_returns ps)) as (rv & -> & _ & _);
    [lia|].
  cbn [mbind outcome_bind].
  replace (1 <? Z.of_nat (length ps)) with true
    by (symmetry; apply Z.ltb_lt; lia).
  change (1 - 2) with (-1). rewrite py_slice_empty.
  rewrite np_assign_from_mismatch; [done| | |done].
  - rewrite length_replicate. lia.
  - rewrite length_replicate. cbn [length]. lia.
Qed.

(** The windows behind the entries up to [i] do not reach [P[i]]. *)
Lemma spec_volatility_prefix annualize (p : nat) ps ps' (i j : nat) :
  length ps = length ps' ->
  (forall k : nat, k <> i -> ps !! k = ps' !! k) ->
  (j <= i)%nat ->
  spec_volatility annualize p ps !! j = spec_volatility annualize p ps' !! j.
Proof.
  intros Hlen Hagree Hj. unfold spec_volatility.
  rewrite !list_lookup_fmap, <- Hlen.
  destruct (seq 0 (length ps) !! j) as [j'|] eqn:Hseq; [|done].
  apply lookup_seq in Hseq as [-> Hjn]. cbn [fmap option_fmap option_map Nat.add].
  destruct (Nat.ltb_spec j (p + 1)) as [|Hjp]; [done|].
  do 5 f_equal. apply list_eq. intros t.
  destruct (decide (t < p)%nat) as [Ht|Ht].
  - rewrite !lookup_take_lt, !lookup_drop by done.
    apply simple_returns_agree; apply Hagree; lia.
  - by rewrite !lookup_take_ge by lia.
Qed.

Lemma volatility_prefix req ps ps' (i : nat) :
  length ps = length ps' ->
  (2 <= length ps)%nat ->
  (forall k : nat, k <> i -> ps !! k = ps' !! k) ->
  agree_upto i (volatility req ps) (volatility req ps').
Proof.
  intros Hlen Hn Hagree.
  destruct (int_param req "period" 20) as [period| |] eqn:Hp;
    [|unfold volatility; by rewrite Hp..].
  destruct (annualize_requested req) as [annualize| |] eqn:Ha;
    [|unfold volatility; by rewrite Hp, Ha..].
  destruct (Z.lt_ge_cases (Z.of_nat (length ps)) (period + 1)) as [Hshort|Hlong].
  { rewrite !(volatility_short _ _ period annualize) by (done || lia).
    done. }
  destruct (Z.le_gt_cases 2 period) as [Hwin|Hwin].
  { rewrite !(volatility_lagged _ _ period annualize) by (done || lia).
    intros j Hj. by apply (spec_volatility_prefix _ _ _ _ i). }
  assert (Hsame : volatility req ps = volatility req ps');
    [|rewrite Hsame; apply agree_upto_refl].
  destruct (decide (period = 1)) as [->|Hne1].
  { by rewrite !(volatility_window_one _ _ annualize) by (done || lia). }
  unfold volatility. rewrite Hp, Ha. cbn [mbind outcome_bind].
  rewrite <- Hlen.
  destruct (decide (period = 0)) as [->|Hne0].
  - by rewrite (rolling_std_zero (simple_returns ps) (simple_returns ps'))
      by (by rewrite !simple_returns_length, Hlen).
  - by rewrite !rolling_std_negative by lia.
Qed.

End no_lookahead.

(** ** The claims about the close-only dispatcher *)

(** C9: a close-only request with fewer than two prices is refused with
    status 400 by the length gate, whatever the indicator name, the
    parameters and the libraries are. *)
Theorem short_prices_rejected `{PyBuiltins} `{Pandas} `{TALib}
    (ind : string) (ps : list float) (kv : option (gmap string pval)) :
  (length ps < 2)%nat ->
  let out :=
    indicator_router_close_only
      {| indicator := ind; prices := ps; params := kv |} in
  out = HTTPException 400 "prices must contain at least 2 values"
  /\ is_client_error out.
Proof.
  intros Hn out. unfold out. rewrite close_only_gate by done.
  split; [done|]. eexists 400, _. split; [done|lia].
Qed.

Lemma short_prices_rejected_witness :
  serve (request "CUMULATIVE_RETURN" [5] [])
  = HTTPException 400 "prices must contain at least 2 values"
  /\ serve (request "current_price" [] [])
     = HTTPException 400 "prices must contain at least 2 values".
Proof.
  split.
  - apply (@short_prices_rejected decimal_builtins two_pass_pandas
             warmup_talib "CUMULATIVE_RETURN" [F64.of_Z 5]
             (Some (list_to_map []))).
    cbn. lia.
  - apply (@short_prices_rejected decimal_builtins two_pass_pandas
             warmup_talib "current_price" [] (Some (list_to_map []))).
    cbn. lia.
Defined.

(** C10: with two prices or more and an indicator name that is, in upper
    case and trimmed, CURRENT_PRICE, PRICE, CLOSE or LAST, the response
    is the price array itself, same length and order, each entry as the
    sanitizer renders it. *)
Theorem current_price_identity `{PyBuiltins} `{Pandas} `{TALib}
    (ind : string) (ps : list float) (kv : option (gmap string pval)) :
  (2 <= length ps)%nat ->
  indicator_name (Some ind) ∈ ["CURRENT_PRICE"; "PRICE"; "CLOSE"; "LAST"]%string ->
  exists V,
    indicator_router_close_only {| indicator := ind; prices := ps; params := kv |}
    = Return V
    /\ V = _nan_to_none (items ps)
    /\ length V = length ps
    /\ forall (i : nat) v, ps !! i = Some v ->
         V !! i = Some (if F64.isnan v then None else Some v).
Proof.
  intros Hn Hind. eexists. split; [by apply close_only_current_price|].
  cbn [prices]. split; [done|]. split; [apply nan_to_none_items_length|].
  intros i v Hv. by rewrite nan_to_none_items, Hv.
Qed.

Lemma current_price_identity_witness :
  exists V,
    serve (request "  Close " [5; 6; 7] []) = Return V
    /\ V = _nan_to_none (items (F64.of_Z <$> [5; 6; 7]))
    /\ length V = 3%nat
    /\ forall (i : nat) v, (F64.of_Z <$> [5; 6; 7]) !! i = Some v ->
         V !! i = Some (if F64.isnan v then None else Some v).
Proof.
  refine (@current_price_identity decimal_builtins two_pass_pandas warmup_talib
            "  Close " (F64.of_Z <$> [5; 6; 7]) (Some (list_to_map [])) _ _).
  - cbn. lia.
  - vm_compute. set_solver.
Defined.

(** C3, as stated, fails on a single price: the length gate answers
    before the indicator is looked at. *)
Lemma cumulative_return_single_price :
  F64.eqb (F64.of_Z 5) F64.zero = false
  /\ serve (request "CUMULATIVE_RETURN" [5] [])
     = HTTPException 400 "prices must contain at least 2 values".
Proof. split; by vm_compute. Qed.

(** C3 (amended): for two prices or more, a first price equal to zero
    is refused with status 400; otherwise the response has the length of
    the input, starts with 0, and holds at every index i >= 1 the value
    P[i-1]/P[0] - 1, null when that value is NaN. *)
Theorem cumulative_return_lagged `{PyBuiltins} `{Pandas} `{TALib}
    (req : CloseOnlyReq) (p0 : float) :
  indicator_name (Some (indicator req)) = "CUMULATIVE_RETURN"%string ->
  (2 <= length (prices req))%nat ->
  prices req !! 0%nat = Some p0 ->
  let out := indicator_router_close_only req in
  (F64.eqb p0 F64.zero = true ->
   out = HTTPException 400 "Invalid prices for cumulative return"
   /\ is_client_error out)
  /\ (F64.eqb p0 F64.zero = false ->
      exists R,
        out = Return R
        /\ length R = length (prices req)
        /\ R !! 0%nat = Some (Some F64.zero)
        /\ forall (i : nat) p, prices req !! i = Some p ->
             (S i < length (prices req))%nat ->
             let r := F64.sub (F64.div p p0) F64.one in
             R !! S i = Some (if F64.isnan r then None else Some r)).
Proof.
  intros Hind Hn Hp0 out. unfold out.
  rewrite close_only_cumulative_return by done. split.
  - intros Hz. rewrite (cumulative_return_zero _ p0) by done.
    split; [done|]. eexists 400, _. split; [done|lia].
  - intros Hz. rewrite (cumulative_return_nonzero _ p0) by done.
    eexists. split; [done|]. unfold spec_cumulative_return. split_and!.
    + by rewrite length_fmap, length_seq.
    + rewrite list_lookup_fmap, lookup_seq_lt by lia. done.
    + intros i p Hp Hi.
      rewrite list_lookup_fmap, lookup_seq_lt by lia.
      cbn [fmap option_fmap option_map Nat.add nan_to_none_item].
      rewrite (list_lookup_total_correct _ _ _ Hp).
      by rewrite (list_lookup_total_correct _ _ _ Hp0).
Qed.

Lemma cumulative_return_lagged_witness :
  exists R,
    serve (request " Cumulative_Return " [2; 3; 4] []) = Return R
    /\ length R = 3%nat
    /\ R !! 0%nat = Some (Some F64.zero)
    /\ R !! 2%nat
       = Some (Some (F64.sub (F64.div (F64.of_Z 3) (F64.of_Z 2)) F64.one)).
Proof.
  destruct (@cumulative_return_lagged decimal_builtins two_pass_pandas
              warmup_talib (request " Cumulative_Return " [2; 3; 4] [])
              (F64.of_Z 2)) as [_ Hok].
  - by vm_compute.
  - cbn. lia.
  - done.
  - destruct (Hok eq_refl) as (R & HR & Hlen & H0 & Hi).
    exists R. split_and!; [done..|].
    by rewrite (Hi 1%nat (F64.of_Z 3)) by (done || cbn; lia).
Defined.

(** C1, as stated, fails for windows below two and for an [annualize]
    flag that is not text: with one price and a window of zero the
    length gate refuses a request the claim accepts; with a window of
    one the slice assignment raises a [ValueError] that no handler
    catches; and a JSON boolean has no [lower] method. *)
Lemma volatility_degenerate_windows :
  serve (request "VOLATILITY" [5] [("period", PInt 0)])
  = HTTPException 400 "prices must contain at least 2 values"
  /\ serve (request "VOLATILITY" [1; 2; 3] [("period", PInt 1)])
     = Raise ValueError
  /\ serve (request "VOLATILITY" [1; 2; 4; 8; 9]
              [("period", PInt 2); ("annualize", PBool true)])
     = Raise AttributeError.
Proof. split_and!; by vm_compute. Qed.

(** In binary64 the return the code computes, [(P[j+1] - P[j]) / P[j]],
    and the quotient form [P[j+1]/P[j] - 1] need not round alike. *)
Example simple_return_rounding :
  simple_returns (F64.of_Z <$> [3; 4])
  = [F64.div (F64.sub (F64.of_Z 4) (F64.of_Z 3)) (F64.of_Z 3)]
  /\ F64.div (F64.sub (F64.of_Z 4) (F64.of_Z 3)) (F64.of_Z 3)
     <> F64.sub (F64.div (F64.of_Z 4) (F64.of_Z 3)) F64.one.
Proof. split; by vm_compute. Qed.

(** C1 (amended): for a window [period >= 2] and an [annualize]
    parameter that is absent or a string, a VOLATILITY request with
    fewer than [period + 1] prices is refused with a client error;
    otherwise the response [V] has the length of the input, [V[i]] is
    null for every [i < period + 1], and for [i >= period + 1] it is the
    sample standard deviation of the returns [d[i-period-1 .. i-2]],
    where [d[j] = (P[j+1] - P[j]) / P[j]], multiplied by [sqrt(252)]
    when annualization is requested (the default, or the text "true" in
    any case), and null when that value is NaN. *)
Theorem volatility_alignment `{PyBuiltins} `{Pandas} `{TALib}
    (req : CloseOnlyReq) (period : Z) (annualize : bool) :
  indicator_name (Some (indicator req)) = "VOLATILITY"%string ->
  int_param req "period" 20 = Return period ->
  annualize_requested req = Return annualize ->
  2 <= period ->
  let P := prices req in
  let n := length P in
  let p := Z.to_nat period in
  let d := simple_returns P in
  let out := indicator_router_close_only req in
  (forall (j : nat) a b, P !! j = Some a -> P !! S j = Some b ->
     d !! j = Some (F64.div (F64.sub b a) a))
  /\ (forall kv, params req = Some kv ->
        (kv !! "annualize"%string = None -> annualize = true)
        /\ (forall s, kv !! "annualize"%string = Some (PStr s) ->
              annualize = bool_decide (lower s = "true"%string)))
  /\ ((n < p + 1)%nat -> is_client_error out)
  /\ ((p + 1 <= n)%nat ->
      exists V,
        out = Return V
        /\ length V = n
        /\ (forall i : nat, (i < p + 1)%nat -> (i < n)%nat -> V !! i = Some None)
        /\ (forall i : nat, (p + 1 <= i < n)%nat ->
              let s := annualized annualize
                         (window_std (take p (drop (i - p - 1) d))) in
              V !! i = Some (if F64.isnan s then None else Some s))).
Proof.
  intros Hind Hp Ha Hper P n p d out. split_and!.
  - intros j a b Hj HSj. unfold d. by rewrite simple_returns_lookup, Hj, HSj.
  - intros kv Hkv. unfold annualize_requested, params_get in Ha.
    rewrite Hkv in Ha. split.
    + intros Hnone. rewrite Hnone in Ha. cbn in Ha.
      rewrite lower_ascii in Ha by done. by injection Ha as <-.
    + intros s Hs. rewrite Hs in Ha. by injection Ha as <-.
  - intros Hn. unfold out.
    destruct (decide (n < 2)%nat) as [Hgate|Hgate].
    + rewrite close_only_gate by done. eexists 400, _. split; [done|lia].
    + rewrite close_only_volatility by (done || fold P n; lia).
      rewrite (volatility_short _ _ period annualize) by (done || fold P n; lia).
      eexists 400, _. split; [done|lia].
  - intros Hn. unfold out.
    rewrite close_only_volatility by (done || fold P n; lia).
    rewrite (volatility_lagged _ _ period annualize) by (done || fold P n; lia).
    eexists. split; [done|]. unfold spec_volatility. fold p P n d. split_and!.
    + by rewrite length_fmap, length_seq.
    + intros i Hi Hin. rewrite list_lookup_fmap, lookup_seq_lt by done.
      cbn [fmap option_fmap option_map Nat.add].
      by replace (i <? p + 1)%nat with true by (symmetry; by apply Nat.ltb_lt).
    + intros i [Hi Hin]. rewrite list_lookup_fmap, lookup_seq_lt by done.
      cbn [fmap option_fmap option_map Nat.add nan_to_none_item].
      replace (i <? p + 1)%nat with false by (symmetry; by apply Nat.ltb_ge).
      by replace (i - 1 - p)%nat with (i - p - 1)%nat by lia.
Qed.

(** Six prices and a window of two: three nulls, then the annualised
    deviations of the return pairs (1, 1), (1, 1) and (1, 1/8). *)
Lemma volatility_alignment_witness :
  exists V,
    serve (request " volatility " [1; 2; 4; 8; 9; 18] [("period", PInt 2)])
    = Return V
    /\ length V = 6%nat
    /\ V !! 2%nat = Some None
    /\ V !! 4%nat = Some (Some F64.zero)
    /\ V !! 5%nat
       = Some (Some (F64.mul
                       (two_pass_std [F64.one; F64.div F64.one (F64.of_Z 8)])
                       sqrt_252)).
Proof.
  destruct (@volatility_alignment decimal_builtins two_pass_pandas warmup_talib
              (request " volatility " [1; 2; 4; 8; 9; 18] [("period", PInt 2)])
              2 true) as (_ & _ & _ & Hok).
  - by vm_compute.
  - by vm_compute.
  - by vm_compute.
  - lia.
  - destruct Hok as (V & HV & Hlen & Hnull & Hval); [cbn; lia|].
    exists V. split_and!; [done..| | |].
    + apply Hnull; cbn; lia.
    + rewrite Hval by (cbn; lia). by vm_compute.
    + rewrite Hval by (cbn; lia). by vm_compute.
Defined.

(** The block reads [req] only for its parameters. *)
Lemma volatility_params `{PyBuiltins} `{Pandas} (req req' : CloseOnlyReq) ps :
  params req = params req' -> volatility req ps = volatility req' ps.
Proof.
  intros Hpar. unfold volatility, int_param, annualize_requested, params_get.
  by rewrite Hpar.
Qed.

(** C2: two VOLATILITY requests whose price arrays have the same length
    and differ at position [i] only receive the same failure, or
    responses that agree at every index [j <= i]. *)
Theorem volatility_no_lookahead `{PyBuiltins} `{Pandas} `{TALib}
    (ind : string) (kv : option (gmap string pval)) (P P' : list float)
    (i : nat) :
  indicator_name (Some ind) = "VOLATILITY"%string ->
  length P = length P' ->
  (forall k : nat, k <> i -> P !! k = P' !! k) ->
  agree_upto i
    (indicator_router_close_only {| indicator := ind; prices := P; params := kv |})
    (indicator_router_close_only {| indicator := ind; prices := P'; params := kv |}).
Proof.
  intros Hind Hlen Hagree.
  destruct (decide (length P < 2)%nat) as [Hgate|Hgate].
  - rewrite !close_only_gate by (cbn [prices]; lia). done.
  - rewrite !close_only_volatility by (done || cbn [prices]; lia).
    cbn [prices].
    rewrite (volatility_params {| indicator := ind; prices := P'; params := kv |}
               {| indicator := ind; prices := P; params := kv |}) by done.
    apply volatility_prefix; [done | lia | done].
Qed.

(** Perturbing the price of day 3 leaves the entries 0..3 as they were. *)
Lemma volatility_no_lookahead_witness :
  agree_upto 3
    (serve (request "VOLATILITY" [1; 2; 4; 8; 9] [("period", PInt 2)]))
    (serve (request "VOLATILITY" [1; 2; 4; 100; 9] [("period", PInt 2)])).
Proof.
  refine (@volatility_no_lookahead decimal_builtins two_pass_pandas warmup_talib
            "VOLATILITY" (Some (list_to_map [("period"%string, PInt 2)]))
            (F64.of_Z <$> [1; 2; 4; 8; 9]) (F64.of_Z <$> [1; 2; 4; 100; 9])
            3%nat _ _ _).
  - by vm_compute.
  - done.
  - intros k Hk. by do 5 (destruct k as [|k]; [done|]).
Defined.

(** The same perturbation is visible one day later. *)
Example volatility_perturbation_visible :
  serve (request "VOLATILITY" [1; 2; 4; 8; 9] [("period", PInt 2)])
  <> serve (request "VOLATILITY" [1; 2; 4; 100; 9] [("period", PInt 2)]).
Proof. by vm_compute. Qed.

(** * Further properties of the service *)

(** ** Case and white space in names *)

Section names.

Lemma is_space_upper_char c : is_space (upper_char c) = is_space c.
Proof. by destruct c as [[] [] [] [] [] [] [] []]. Qed.

Lemma is_space_lower_char c : is_space (lower_char c) = is_space c.
Proof. by destruct c as [[] [] [] [] [] [] [] []]. Qed.

Lemma lower_upper_char c : lower_char (upper_char c) = lower_char c.
Proof. by destruct c as [[] [] [] [] [] [] [] []]. Qed.

Lemma lower_lower_char c : lower_char (lower_char c) = lower_char c.
Proof. by destruct c as [[] [] [] [] [] [] [] []]. Qed.

Lemma upper_lower_char c : upper_char (lower_char c) = upper_char c.
Proof. by destruct c as [[] [] [] [] [] [] [] []]. Qed.

Lemma upper_upper_char c : upper_char (upper_char c) = upper_char c.
Proof. by destruct c as [[] [] [] [] [] [] [] []]. Qed.

Lemma map_string_compose (f g h : ascii -> ascii) s :
  (forall c, f (g c) = h c) ->
  map_string f (map_string g s) = map_string h s.
Proof. intros Hc. induction s as [|c s IH]; cbn; [done|]. by rewrite Hc, IH. Qed.

Lemma map_string_empty (f : ascii -> ascii) s :
  map_string f s = EmptyString <-> s = EmptyString.
Proof. by destruct s. Qed.

(** Trimming commutes with a change of case. *)
Lemma lstrip_map (f : ascii -> ascii) s :
  (forall c, is_space (f c) = is_space c) ->
  lstrip (map_string f s) = map_string f (lstrip s).
Proof.
  intros Hf. induction s as [|c s IH]; cbn; [done|].
  rewrite Hf. by destruct (is_space c).
Qed.

Lemma rstrip_map (f : ascii -> ascii) s :
  (forall c, is_space (f c) = is_space c) ->
  rstrip (map_string f s) = map_string f (rstrip s).
Proof.
  intros Hf. induction s as [|c s IH]; cbn; [done|].
  rewrite IH, Hf. destruct (rstrip s); cbn; [|done].
  by destruct (is_space c).
Qed.

Lemma strip_map (f : ascii -> ascii) s :
  (forall c, is_space (f c) = is_space c) ->
  ascii_strip (map_string f s) = map_string f (ascii_strip s).
Proof. intros Hf. unfold ascii_strip. by rewrite lstrip_map, rstrip_map. Qed.

Lemma rstrip_idemp s : rstrip (rstrip s) = rstrip s.
Proof.
  induction s as [|c s IH]; cbn; [done|].
  destruct (rstrip s) as [|c' r] eqn:Hr.
  - destruct (is_space c) eqn:Hc; cbn; [done|]. by rewrite Hc.
  - change (rstrip (String c (String c' r)))
      with (match rstrip (String c' r) with
            | EmptyString =>
                if is_space c then EmptyString else String c EmptyString
            | r' => String c r'
            end).
    by rewrite IH.
Qed.

(** What [lstrip] leaves does not start with a space, and [rstrip]
    keeps it that way. *)
Lemma lstrip_rstrip_lstrip s : lstrip (rstrip (lstrip s)) = rstrip (lstrip s).
Proof.
  induction s as [|c s IH]; cbn; [done|].
  destruct (is_space c) eqn:Hc; [done|]. cbn [rstrip].
  destruct (rstrip s); rewrite ?Hc; cbn [lstrip]; by rewrite Hc.
Qed.

Lemma strip_idemp s : ascii_strip (ascii_strip s) = ascii_strip s.
Proof. unfold ascii_strip. by rewrite lstrip_rstrip_lstrip, rstrip_idemp. Qed.

(** ASCII text stays ASCII text. *)
Lemma is_ascii_upper_char c :
  (N_of_ascii (upper_char c) <? 128)%N = (N_of_ascii c <? 128)%N.
Proof. by destruct c as [[] [] [] [] [] [] [] []]. Qed.

Lemma is_ascii_lower_char c :
  (N_of_ascii (lower_char c) <? 128)%N = (N_of_ascii c <? 128)%N.
Proof. by destruct c as [[] [] [] [] [] [] [] []]. Qed.

Lemma is_ascii_map (f : ascii -> ascii) s :
  (forall c, (N_of_ascii (f c) <? 128)%N = (N_of_ascii c <? 128)%N) ->
  is_ascii (map_string f s) = is_ascii s.
Proof. intros Hf. induction s as [|c s IH]; cbn; [done|]. by rewrite Hf, IH. Qed.

Lemma is_ascii_upper s : is_ascii s = true -> is_ascii (ascii_upper s) = true.
Proof.
  intros Hs. unfold ascii_upper.
  by rewrite is_ascii_map by apply is_ascii_upper_char.
Qed.

Lemma is_ascii_lower s : is_ascii s = true -> is_ascii (ascii_lower s) = true.
Proof.
  intros Hs. unfold ascii_lower.
  by rewrite is_ascii_map by apply is_ascii_lower_char.
Qed.

Lemma is_ascii_lstrip s : is_ascii s = true -> is_ascii (lstrip s) = true.
Proof.
  induction s as [|c s IH]; [done|]. intros Hs. cbn [lstrip].
  destruct (is_space c); [|done].
  apply IH. cbn in Hs. by apply andb_true_iff in Hs as [_ ?].
Qed.

Lemma is_ascii_rstrip s : is_ascii s = true -> is_ascii (rstrip s) = true.
Proof.
  induction s as [|c s IH]; [done|]. intros Hs.
  cbn [is_ascii] in Hs. apply andb_true_iff in Hs as [Hc Hs].
  specialize (IH Hs). cbn [rstrip].
  destruct (rstrip s) as [|c' r].
  - destruct (is_space c); [done|]. cbn [is_ascii]. by rewrite Hc.
  - cbn [is_ascii] in *. by rewrite Hc.
Qed.

Lemma is_ascii_strip s : is_ascii s = true -> is_ascii (ascii_strip s) = true.
Proof. intros Hs. by apply is_ascii_rstrip, is_ascii_lstrip. Qed.

Context `{PyBuiltins}.

(** On ASCII text the name is the trimmed upper-case spelling. *)
Lemma indicator_name_ascii s :
  is_ascii s = true ->
  indicator_name (Some s) = ascii_strip (ascii_upper s)
  /\ is_ascii (indicator_name (Some s)) = true.
Proof.
  intros Hs. unfold indicator_name. cbn [default].
  rewrite (upper_ascii s) by done.
  rewrite strip_ascii by (by apply is_ascii_upper).
  split; [done|]. by apply is_ascii_strip, is_ascii_upper.
Qed.

Lemma indicator_name_lower s :
  is_ascii s = true ->
  indicator_name (Some (lower s)) = indicator_name (Some s).
Proof.
  intros Hs. rewrite (lower_ascii s) by done.
  rewrite (proj1 (indicator_name_ascii _ (is_ascii_lower _ Hs))).
  rewrite (proj1 (indicator_name_ascii _ Hs)). unfold ascii_upper, ascii_lower.
  by rewrite (map_string_compose _ _ upper_char) by apply upper_lower_char.
Qed.

Lemma indicator_name_upper s :
  is_ascii s = true ->
  indicator_name (Some (upper s)) = indicator_name (Some s).
Proof.
  intros Hs. rewrite (upper_ascii s) by done.
  rewrite (proj1 (indicator_name_ascii _ (is_ascii_upper _ Hs))).
  rewrite (proj1 (indicator_name_ascii _ Hs)). unfold ascii_upper.
  by rewrite (map_string_compose _ _ upper_char) by apply upper_upper_char.
Qed.

Lemma indicator_name_strip s :
  is_ascii s = true ->
  indicator_name (Some (strip s)) = indicator_name (Some s).
Proof.
  intros Hs. rewrite (strip_ascii s) by done.
  rewrite (proj1 (indicator_name_ascii _ (is_ascii_strip _ Hs))).
  rewrite (proj1 (indicator_name_ascii _ Hs)). unfold ascii_upper.
  rewrite !strip_map by apply is_space_upper_char.
  by rewrite strip_idemp.
Qed.

Lemma indicator_name_idemp s :
  is_ascii s = true ->
  indicator_name (Some (indicator_name (Some s))) = indicator_name (Some s).
Proof.
  intros Hs. destruct (indicator_name_ascii _ Hs) as [Hname Hascii].
  rewrite (proj1 (indicator_name_ascii _ Hascii)), Hname. unfold ascii_upper.
  rewrite (strip_map upper_char (ascii_strip _)) by apply is_space_upper_char.
  rewrite strip_idemp.
  rewrite <- (strip_map upper_char) by apply is_space_upper_char.
  by rewrite (map_string_compose _ _ upper_char) by apply upper_upper_char.
Qed.

(** On ASCII text the key of a period label is its trimmed lower-case
    spelling. *)
Lemma period_key_ascii s :
  is_ascii s = true -> lower (strip s) = ascii_lower (ascii_strip s).
Proof.
  intros Hs. rewrite (strip_ascii s) by done.
  by rewrite lower_ascii by (by apply is_ascii_strip).
Qed.

End names.

Lemma router_reads_normal_form `{PyBuiltins} `{Pandas} `{TALib} `{TALibBars}
    (payload : Payload) (s s' : string) :
  pl_indicator payload = Some (IndStr s) ->
  indicator_name (Some s') = indicator_name (Some s) ->
  indicator_router (with_indicator payload s') = indicator_router payload.
Proof.
  intros Hs Heq. destruct payload as [i ps h l c v par]. cbn in Hs. subst i.
  unfold indicator_router, with_indicator, indicator_text, required_indicator,
    payload_params.
  cbn [pl_indicator pl_prices pl_high pl_low pl_close pl_volume pl_params
       mbind outcome_bind].
  rewrite Heq. destruct ps as [ps|]; [|done].
  unfold indicator_router_close_only. cbn [indicator prices params].
  by rewrite Heq.
Qed.

(** X1: the indicator name is read in upper case and trimmed: for a name
    written in ASCII, spelling it in lower case, in upper case, without
    its surrounding white space or in its normal form changes nothing in
    the response, whatever the shape of the payload. *)
Theorem indicator_spelling_irrelevant `{PyBuiltins} `{Pandas} `{TALib}
    `{TALibBars} (payload : Payload) (s s' : string) :
  is_ascii s = true ->
  pl_indicator payload = Some (IndStr s) ->
  s' ∈ [lower s; upper s; strip s; indicator_name (Some s)] ->
  indicator_router (with_indicator payload s') = indicator_router payload.
Proof.
  intros Hascii Hs Hin. apply (router_reads_normal_form _ s); [done|].
  set_unfold in Hin. destruct Hin as [-> | [-> | [-> | [-> | []]]]].
  - by apply indicator_name_lower.
  - by apply indicator_name_upper.
  - by apply indicator_name_strip.
  - by apply indicator_name_idemp.
Qed.

Lemma indicator_spelling_irrelevant_witness :
  route (payload_of (Some "  cumulative_return ") (Some [2; 3; 4])
           None None None None)
  = route (payload_of (Some "CUMULATIVE_RETURN") (Some [2; 3; 4])
             None None None None).
Proof.
  symmetry.
  refine (@indicator_spelling_irrelevant decimal_builtins two_pass_pandas
            warmup_talib warmup_bars
            (payload_of (Some "  cumulative_return ") (Some [2; 3; 4])
               None None None None)
            "  cumulative_return " "CUMULATIVE_RETURN" _ _ _).
  - done.
  - done.
  - apply (bool_decide_unpack _). by vm_compute.
Defined.

(** X2: period labels written in ASCII are read without regard to case:
    the upper-case and the lower-case spelling of such a label resolve
    as the label does, the possible failure included. *)
Theorem resolve_period_case_insensitive `{PyBuiltins} (label : string) :
  is_ascii label = true ->
  _resolve_period_settings (Some (upper label))
  = _resolve_period_settings (Some label)
  /\ _resolve_period_settings (Some (lower label))
     = _resolve_period_settings (Some label).
Proof.
  intros Hascii.
  rewrite (upper_ascii label), (lower_ascii label) by done.
  destruct (decide (label = EmptyString)) as [->|Hne]; [done|].
  assert (Hu : ascii_upper label <> EmptyString)
    by (unfold ascii_upper; by rewrite map_string_empty).
  assert (Hl : ascii_lower label <> EmptyString)
    by (unfold ascii_lower; by rewrite map_string_empty).
  rewrite !resolve_nonempty by done.
  rewrite (period_key_ascii (ascii_upper label)) by (by apply is_ascii_upper).
  rewrite (period_key_ascii (ascii_lower label)) by (by apply is_ascii_lower).
  rewrite (period_key_ascii label) by done.
  assert (Hku : ascii_lower (ascii_strip (ascii_upper label))
                = ascii_lower (ascii_strip label)).
  { unfold ascii_upper, ascii_lower.
    rewrite strip_map by apply is_space_upper_char.
    by rewrite (map_string_compose _ _ lower_char) by apply lower_upper_char. }
  assert (Hkl : ascii_lower (ascii_strip (ascii_lower label))
                = ascii_lower (ascii_strip label)).
  { unfold ascii_lower.
    rewrite strip_map by apply is_space_lower_char.
    by rewrite (map_string_compose _ _ lower_char) by apply lower_lower_char. }
  by rewrite Hku, Hkl.
Qed.

Lemma resolve_period_case_insensitive_witness :
  @_resolve_period_settings decimal_builtins (Some " WEEKLY "%string)
  = @_resolve_period_settings decimal_builtins (Some " Weekly "%string)
  /\ @_resolve_period_settings decimal_builtins (Some " weekly "%string)
     = @_resolve_period_settings decimal_builtins (Some " Weekly "%string).
Proof.
  refine (@resolve_period_case_insensitive decimal_builtins " Weekly " _).
  done.
Defined.

(** ** Period resolver: range and failures *)

Lemma period_table_range key f n :
  _PERIOD_SETTINGS !! key = Some (f, n) ->
  0 < n /\ f ∈ ["D"; "W"; "M"; "Q"; "Y"]%string.
Proof.
  intros Hl. unfold _PERIOD_SETTINGS in Hl.
  apply elem_of_list_to_map_2 in Hl. set_unfold in Hl.
  repeat (destruct Hl as [[= -> -> ->] | Hl]; [split; [lia | set_solver]|]).
  done.
Qed.

(** X3: whatever the label, a pair the resolver returns has a positive
    number of periods per year and one of the five frequency tags. *)
Theorem resolve_period_range `{PyBuiltins} (label : option string) f n :
  _resolve_period_settings label = Return (f, n) ->
  0 < n /\ f ∈ ["D"; "W"; "M"; "Q"; "Y"]%string.
Proof.
  assert (Hdflt : forall f n, Return ("D"%string, 252) = Return (f, n) ->
                    0 < n /\ f ∈ ["D"; "W"; "M"; "Q"; "Y"]%string).
  { intros ?? [= <- <-]. split; [lia | set_solver]. }
  destruct label as [l|]; [|apply Hdflt].
  destruct (decide (l = EmptyString)) as [->|Hne]; [apply Hdflt|].
  rewrite resolve_nonempty by done.
  destruct (_PERIOD_SETTINGS !! lower (strip l)) as [[f' n']|] eqn:Hl.
  { intros [= <- <-]. by eapply period_table_range. }
  unfold py_float_str, int_of_float.
  destruct (float_of_str _) as [x|]; cbn; [|apply Hdflt].
  destruct (F64.isnan x); cbn; [apply Hdflt|].
  destruct (F64.isinf x); cbn; [done|].
  destruct (Z.ltb_spec 0 (F64.trunc x)); cbn; [|apply Hdflt].
  clear Hdflt. intros [= <- <-]. split; [done | set_solver].
Qed.

Lemma resolve_period_range_witness :
  0 < 26 /\ "D"%string ∈ ["D"; "W"; "M"; "Q"; "Y"]%string.
Proof.
  apply (@resolve_period_range decimal_builtins (Some " 26.9 "%string)).
  by vm_compute.
Defined.

(** X4: the resolver never raises [HTTPException], and the one way it
    fails is an [OverflowError] on a non-empty label that is not in the
    table and reads as an infinity. *)
Theorem resolve_period_failures `{PyBuiltins} (label : option string) :
  (forall c d, _resolve_period_settings label <> HTTPException c d)
  /\ (forall e,
        _resolve_period_settings label = Raise e <->
        e = OverflowError
        /\ exists l x,
             label = Some l /\ l <> EmptyString
             /\ _PERIOD_SETTINGS !! lower (strip l) = None
             /\ float_of_str (lower (strip l)) = Some x
             /\ F64.isinf x = true).
Proof.
  assert (Hno : forall e : pyexn,
            ~ (e = OverflowError
               /\ exists l x, (None : option string) = Some l /\ l <> EmptyString
                    /\ _PERIOD_SETTINGS !! lower (strip l) = None
                    /\ float_of_str (lower (strip l)) = Some x
                    /\ F64.isinf x = true))
    by (by intros e (_ & l & x & [=] & _)).
  destruct label as [l|]; [|split; [done|]; intros e; split; [done|]; by intros ?%Hno].
  destruct (decide (l = EmptyString)) as [->|Hne].
  { split; [done|]. intros e. split; [done|].
    by intros (_ & l & x & [= <-] & ? & _). }
  rewrite resolve_nonempty by done.
  destruct (_PERIOD_SETTINGS !! lower (strip l)) as [setting|] eqn:Hl.
  { split; [done|]. intros e. split; [done|].
    intros (_ & l' & x & [= <-] & _ & Hl' & _). by rewrite Hl in Hl'. }
  unfold py_float_str, int_of_float.
  destruct (float_of_str (lower (strip l))) as [x|] eqn:Hx; cbn.
  2:{ split; [done|]. intros e. split; [done|].
      intros (_ & l' & x & [= <-] & _ & _ & Hx' & _). by rewrite Hx in Hx'. }
  destruct (F64.isnan x) eqn:Hnan; cbn.
  { split; [done|]. intros e. split; [done|].
    intros (_ & l' & x' & [= <-] & _ & _ & Hx' & Hinf).
    rewrite Hx in Hx'. injection Hx' as <-. by destruct x. }
  destruct (F64.isinf x) eqn:Hinf; cbn.
  { split; [done|]. intros e. split.
    - intros [= <-]. split; [done|]. by exists l, x.
    - by intros [-> _]. }
  split.
  { intros c d. by destruct (0 <? F64.trunc x). }
  intros e. split; [by destruct (0 <? F64.trunc x)|].
  intros (_ & l' & x' & [= <-] & _ & _ & Hx' & Hinf').
  rewrite Hx in Hx'. injection Hx' as <-. by rewrite Hinf in Hinf'.
Qed.

(** ** Return/equity normaliser: cleaning *)

Lemma clean_numeric_list_filter (l : list float) :
  _clean_numeric_list (Some l) = filter (fun x => F64.isfinite x = true) l.
Proof. by destruct l. Qed.

Lemma filter_finite_skip (l1 l2 : list float) x :
  F64.isfinite x = false ->
  filter (fun x => F64.isfinite x = true) (l1 ++ x :: l2)
  = filter (fun x => F64.isfinite x = true) (l1 ++ l2).
Proof.
  intros Hx. rewrite !filter_app, filter_cons.
  by rewrite decide_False by (by rewrite Hx).
Qed.

Lemma filter_finite_all (l : list float) :
  Forall (fun x => F64.isfinite x = true) l ->
  filter (fun x => F64.isfinite x = true) l = l.
Proof.
  induction 1 as [|x l Hx _ IH]; [done|].
  by rewrite filter_cons, decide_True, IH by done.
Qed.

Lemma filter_finite_Forall (l : list float) :
  Forall (fun x => F64.isfinite x = true)
    (filter (fun x => F64.isfinite x = true) l).
Proof.
  apply Forall_forall. intros x Hx. by apply list_elem_of_filter in Hx as [? _].
Qed.

(** X5: the cleaner keeps exactly the finite values, in order: its
    output is a finite-valued subsequence of the input, cleaning twice
    is cleaning once, and an input without NaN or infinity is
    unchanged. *)
Theorem clean_numeric_list_props (values : option (list float)) :
  let out := _clean_numeric_list values in
  Forall (fun x => F64.isfinite x = true) out
  /\ out `sublist_of` default [] values
  /\ _clean_numeric_list (Some out) = out
  /\ (forall l, values = Some l ->
        Forall (fun x => F64.isfinite x = true) l -> out = l).
Proof.
  intros out. unfold out. destruct values as [l|]; cbn [default from_option id].
  - rewrite !clean_numeric_list_filter. split_and!.
    + apply filter_finite_Forall.
    + apply sublist_filter.
    + apply filter_finite_all, filter_finite_Forall.
    + intros l' [= <-]. apply filter_finite_all.
  - by split_and!.
Qed.

Lemma equity_to_returns_length (e : list float) :
  (length (_equity_to_returns e) <= length e - 1)%nat.
Proof.
  unfold _equity_to_returns. destruct (_ <? _)%nat; [cbn; lia|].
  etrans; [apply length_filter|].
  rewrite length_zip_with, py_slice_drop_first, length_drop. lia.
Qed.

Lemma equity_to_returns_finite (e : list float) :
  Forall (fun x => F64.isfinite x = true) (_equity_to_returns e).
Proof.
  unfold _equity_to_returns. destruct (_ <? _)%nat; [done|].
  apply filter_finite_Forall.
Qed.

(** X6: a NaN or an infinity among the raw returns, or among the equity
    points, is ignored: the request is served as if the entry had not
    been sent. *)
Theorem quantstats_ignores_non_finite (req : QuantStatsRequest)
    (l1 l2 : list float) (x : float) :
  F64.isfinite x = false ->
  quantstats_returns (with_returns req (Some (l1 ++ x :: l2)))
  = quantstats_returns (with_returns req (Some (l1 ++ l2)))
  /\ quantstats_returns (with_equity req (Some (l1 ++ x :: l2)))
     = quantstats_returns (with_equity req (Some (l1 ++ l2))).
Proof.
  intros Hx. unfold quantstats_returns, with_returns, with_equity.
  cbn [returns equity]. rewrite !clean_numeric_list_filter.
  rewrite !filter_finite_skip by done. split; [done|].
  destruct (length (_clean_numeric_list (returns req)) <? 2)%nat eqn:Hraw;
    cbn [andb]; [|done].
  replace (truthy (Some (l1 ++ x :: l2))) with true by (by destruct l1).
  destruct (l1 ++ l2) as [|y l] eqn:Happ; [|done].
  cbn [truthy]. by rewrite Hraw.
Qed.

Lemma quantstats_ignores_non_finite_witness :
  quantstats_returns (equity_request [100; 103; 101])
  = quantstats_returns
      (with_equity (equity_request [])
         (Some (floats [100; 103] ++ F64.nan :: floats [101]))).
Proof.
  symmetry.
  refine (proj2 (quantstats_ignores_non_finite (equity_request [])
                   (floats [100; 103]) (floats [101]) F64.nan _)).
  done.
Defined.

(** X7: without two finite raw returns, an equity curve with fewer than
    three finite points is refused with status 400: two points give one
    return only. *)
Theorem equity_needs_three_points (req : QuantStatsRequest) :
  (length (_clean_numeric_list (returns req)) < 2)%nat ->
  (length (_clean_numeric_list (equity req)) < 3)%nat ->
  quantstats_returns req
  = HTTPException 400
      "Provide at least two clean return observations or equity points.".
Proof.
  intros Hraw Heq. unfold quantstats_returns.
  replace (length (_clean_numeric_list (returns req)) <? 2)%nat with true
    by (symmetry; by apply Nat.ltb_lt).
  cbn [andb].
  pose proof (equity_to_returns_length (_clean_numeric_list (equity req))).
  destruct (truthy (equity req)).
  - by replace (length (_equity_to_returns _) <? 2)%nat with true
      by (symmetry; apply Nat.ltb_lt; lia).
  - by replace (length (_clean_numeric_list (returns req)) <? 2)%nat with true
      by (symmetry; by apply Nat.ltb_lt).
Qed.

Lemma equity_needs_three_points_witness :
  quantstats_returns (equity_request [100; 103])
  = HTTPException 400
      "Provide at least two clean return observations or equity points.".
Proof.
  apply equity_needs_three_points; vm_compute; lia.
Defined.

(** X8: a series handed to the statistics has two observations or more,
    all of them finite, and is either the cleaned raw returns or the
    returns derived from the cleaned equity curve. *)
Theorem quantstats_returns_clean (req : QuantStatsRequest) (arr : list float) :
  quantstats_returns req = Return arr ->
  (2 <= length arr)%nat
  /\ Forall (fun x => F64.isfinite x = true) arr
  /\ (arr = _clean_numeric_list (returns req)
      \/ arr = _equity_to_returns (_clean_numeric_list (equity req))).
Proof.
  unfold quantstats_returns.
  assert (Hclean : forall v, Forall (fun x => F64.isfinite x = true)
                               (_clean_numeric_list v)).
  { intros [l|]; [|apply Forall_nil_2].
    rewrite clean_numeric_list_filter. apply filter_finite_Forall. }
  destruct (_ && _).
  - destruct (Nat.ltb_spec (length (_equity_to_returns
                (_clean_numeric_list (equity req)))) 2); [done|].
    intros [= <-]. split_and!; [done | apply equity_to_returns_finite | by right].
  - destruct (Nat.ltb_spec (length (_clean_numeric_list (returns req))) 2);
      [done|].
    intros [= <-]. split_and!; [done | apply Hclean | by left].
Qed.

Lemma quantstats_returns_clean_witness :
  exists arr,
    quantstats_returns (equity_request [100; 103; 101; 105]) = Return arr
    /\ (2 <= length arr)%nat
    /\ Forall (fun x => F64.isfinite x = true) arr.
Proof.
  eexists. split; [by vm_compute|].
  destruct (quantstats_returns_clean (equity_request [100; 103; 101; 105]) _
              eq_refl) as (Hlen & Hfin & _).
  split; [exact Hlen | exact Hfin].
Defined.

(** ** Dispatcher: no NaN leaves the service *)

Section nan_free_responses.
Implicit Types (s rest : stmt (list (option float))).
Implicit Types (o : outcome (list (option float))).

Lemma sanitized_nan_free (out : list float) : nan_free (_nan_to_none (items out)).
Proof.
  intros i v. rewrite nan_to_none_items.
  destruct (out !! i) as [x|]; cbn; [|done].
  destruct (F64.isnan x) eqn:Hx; [done|]. by intros [= <-].
Qed.

Lemma returns_nan_free_sanitized (out : list float) :
  returns_nan_free (return_ (_nan_to_none (items out))).
Proof. intros V [= <-]. apply sanitized_nan_free. Qed.

Lemma answers_nan_free_sanitized (out : list float) :
  answers_nan_free (Return (_nan_to_none (items out))).
Proof. intros V [= <-]. apply sanitized_nan_free. Qed.

Lemma returns_nan_free_error c d : returns_nan_free (HTTPException c d).
Proof. by intros V. Qed.

Lemma answers_nan_free_error c d : answers_nan_free (HTTPException c d).
Proof. by intros V. Qed.

Lemma returns_nan_free_raise e : returns_nan_free (Raise e).
Proof. by intros V. Qed.

Lemma answers_nan_free_raise e : answers_nan_free (Raise e).
Proof. by intros V. Qed.

Lemma returns_nan_free_bind {A} (m : outcome A) (k : A -> stmt _) :
  (forall a, returns_nan_free (k a)) -> returns_nan_free (m ≫= k).
Proof. intros Hk. destruct m as [a| |]; [apply Hk|done..]. Qed.

Lemma answers_nan_free_bind {A} (m : outcome A) (k : A -> outcome _) :
  (forall a, answers_nan_free (k a)) -> answers_nan_free (m ≫= k).
Proof. intros Hk. destruct m as [a| |]; [apply Hk|done..]. Qed.

Lemma returns_nan_free_if (c : bool) s s' :
  returns_nan_free s -> returns_nan_free s' ->
  returns_nan_free (if c then s else s').
Proof. by destruct c. Qed.

Lemma answers_nan_free_if (c : bool) o o' :
  answers_nan_free o -> answers_nan_free o' ->
  answers_nan_free (if c then o else o').
Proof. by destruct c. Qed.

Lemma returns_nan_free_py_if (c : bool) s :
  returns_nan_free s -> returns_nan_free (py_if c s).
Proof. intros Hs. destruct c; [done|]. by intros V. Qed.

Lemma returns_nan_free_seq s rest :
  returns_nan_free s -> returns_nan_free rest -> returns_nan_free (s >> rest).
Proof.
  intros Hs Hrest V. unfold stmt_seq.
  destruct s as [[W|]| |]; cbn; try done.
  - intros [= <-]. by apply Hs.
  - apply Hrest.
Qed.

Lemma answers_nan_free_end s o :
  returns_nan_free s -> answers_nan_free o -> answers_nan_free (s >>| o).
Proof.
  intros Hs Ho V. unfold stmt_end.
  destruct s as [[W|]| |]; cbn; try done.
  - intros [= <-]. by apply Hs.
  - apply Ho.
Qed.

Lemma returns_nan_free_some o :
  answers_nan_free o -> returns_nan_free (Some <$> o).
Proof. intros Ho V. destruct o as [W| |]; cbn; [|done..]. intros [= <-]. by apply Ho. Qed.

End nan_free_responses.

(** Walks a handler body down to its return statements. *)
Ltac nan_free_walk :=
  repeat first
    [ apply returns_nan_free_sanitized
    | apply answers_nan_free_sanitized
    | apply returns_nan_free_error
    | apply answers_nan_free_error
    | apply returns_nan_free_raise
    | apply answers_nan_free_raise
    | apply answers_nan_free_end
    | apply returns_nan_free_seq
    | apply returns_nan_free_py_if
    | apply returns_nan_free_some
    | apply returns_nan_free_if
    | apply answers_nan_free_if
    | apply returns_nan_free_bind; intros ?
    | apply answers_nan_free_bind; intros ?
    | match goal with
      | |- context [let '(_, _) := ?p in _] => destruct p
      end ].

Section nan_free_handlers.
Context `{PyBuiltins} `{Pandas} `{TALib} `{TALibBars}.

Lemma cumulative_return_nan_free ps : answers_nan_free (cumulative_return ps).
Proof. unfold cumulative_return. nan_free_walk. Qed.

Lemma volatility_nan_free req ps : answers_nan_free (volatility req ps).
Proof. unfold volatility. nan_free_walk. Qed.

Lemma close_only_nan_free req :
  answers_nan_free (indicator_router_close_only req).
Proof.
  unfold indicator_router_close_only. cbv zeta.
  nan_free_walk;
    first [apply cumulative_return_nan_free | apply volatility_nan_free].
Qed.

Lemma hlc_nan_free ind params high low close :
  answers_nan_free (indicator_router_hlc ind params high low close).
Proof. unfold indicator_router_hlc. cbv zeta. nan_free_walk. Qed.

Lemma hlcv_nan_free ind params high low close volume :
  answers_nan_free (indicator_router_hlcv ind params high low close volume).
Proof. unfold indicator_router_hlcv. cbv zeta. nan_free_walk. Qed.

Lemma cv_nan_free ind close volume :
  answers_nan_free (indicator_router_cv ind close volume).
Proof. unfold indicator_router_cv. cbv zeta. nan_free_walk. Qed.

End nan_free_handlers.

(** X9: no successful response of [/indicator], for any payload shape
    and any behaviour of TA-Lib and pandas, and no successful response
    of [/rsi], has a NaN among its values. *)
Theorem responses_nan_free `{PyBuiltins} `{Pandas} `{TALib} `{TALibBars}
    (payload : Payload) (values : list float) (period : Z) :
  answers_nan_free (indicator_router payload)
  /\ answers_nan_free (rsi values period).
Proof.
  split.
  - unfold indicator_router. apply answers_nan_free_bind. intros text.
    cbv zeta. destruct (pl_prices payload).
    { apply answers_nan_free_bind. intros ?. apply close_only_nan_free. }
    destruct (pl_high payload), (pl_low payload), (pl_close payload),
      (pl_volume payload);
      first [ apply answers_nan_free_error
            | apply answers_nan_free_bind; intros ? ];
      first [apply hlc_nan_free | apply hlcv_nan_free | apply cv_nan_free].
  - unfold rsi. nan_free_walk.
Qed.

(** ** Dispatcher: unsupported names and unrecognised shapes *)

(** Settles the name tests of a path for a name outside its list. *)
Ltac refute_names Hnot :=
  unfold is_in;
  repeat (rewrite bool_decide_eq_false_2;
          [|first [ intros ->; apply Hnot; apply list_elem_of_In;
                    cbn; tauto
                  | intros Hin%list_elem_of_In; apply Hnot;
                    apply list_elem_of_In; cbn in *; tauto ]]).

Section unsupported.
Context `{PyBuiltins} `{Pandas} `{TALib} `{TALibBars}.

Lemma stmt_end_pass {A} (rest : outcome A) : (pass >>| rest) = rest.
Proof. done. Qed.

Lemma close_only_unsupported req :
  (2 <= length (prices req))%nat ->
  indicator_name (Some (indicator req)) ∉ close_only_names ->
  indicator_router_close_only req
  = HTTPException 400
      ("Unsupported close-only indicator '"
       +:+ indicator_name (Some (indicator req)) +:+ "'").
Proof.
  intros Hn Hnot. unfold indicator_router_close_only, _as_nd.
  replace (length (prices req) <? 2)%nat with false
    by (symmetry; by apply Nat.ltb_ge).
  cbv zeta. set (name := indicator_name _) in *.
  refute_names Hnot. cbn [orb].
  by rewrite !stmt_seq_skip.
Qed.

Lemma hlc_unsupported ind params high low close :
  ind ∉ hlc_names ->
  indicator_router_hlc ind params high low close
  = HTTPException 400 ("Unsupported HLC indicator '" +:+ ind +:+ "'").
Proof.
  intros Hnot. unfold indicator_router_hlc. cbv zeta.
  refute_names Hnot. by rewrite !stmt_seq_skip.
Qed.

Lemma hlcv_unsupported ind params high low close volume :
  ind ∉ hlcv_names ->
  indicator_router_hlcv ind params high low close volume
  = HTTPException 400 ("Unsupported HLCV indicator '" +:+ ind +:+ "'").
Proof.
  intros Hnot. unfold indicator_router_hlcv. cbv zeta.
  refute_names Hnot. by rewrite !stmt_seq_skip.
Qed.

Lemma cv_unsupported ind close volume :
  ind <> "OBV"%string ->
  indicator_router_cv ind close volume
  = HTTPException 400 ("Unsupported Close+Volume indicator '" +:+ ind +:+ "'").
Proof.
  intros Hnot. unfold indicator_router_cv. cbv zeta.
  by rewrite bool_decide_eq_false_2.
Qed.

End unsupported.

(** X10: a close-only request with two prices or more whose indicator
    name, in upper case and trimmed, is none of the 21 names of the
    close-only path is refused with status 400 and a message that quotes
    the name as read. *)
Theorem unsupported_close_only_indicator `{PyBuiltins} `{Pandas} `{TALib}
    (ind : string) (ps : list float) (kv : option (gmap string pval)) :
  (2 <= length ps)%nat ->
  indicator_name (Some ind) ∉ close_only_names ->
  indicator_router_close_only {| indicator := ind; prices := ps; params := kv |}
  = HTTPException 400
      ("Unsupported close-only indicator '"
       +:+ indicator_name (Some ind) +:+ "'").
Proof. intros Hn Hnot. by apply close_only_unsupported. Qed.

Lemma unsupported_close_only_indicator_witness :
  serve (request "foo" [1; 2; 3] [])
  = HTTPException 400 "Unsupported close-only indicator 'FOO'".
Proof.
  refine (@unsupported_close_only_indicator decimal_builtins two_pass_pandas
            warmup_talib "foo" (floats [1; 2; 3]) (Some (list_to_map [])) _ _).
  - cbn. lia.
  - apply (bool_decide_unpack _). by vm_compute.
Defined.

(** X11: the bar-based shapes have no length gate and refuse a name
    outside their own list with status 400, naming the shape; in
    particular OBV is served for close and volume alone, not when high
    and low come along. *)
Theorem unsupported_bar_indicator `{PyBuiltins} `{Pandas} `{TALib}
    `{TALibBars} (payload : Payload) (s : string) :
  pl_prices payload = None ->
  pl_indicator payload = Some (IndStr s) ->
  let name := indicator_name (Some s) in
  (is_Some (pl_high payload) -> is_Some (pl_low payload) ->
   is_Some (pl_close payload) -> pl_volume payload = None ->
   name ∉ hlc_names ->
   indicator_router payload
   = HTTPException 400 ("Unsupported HLC indicator '" +:+ name +:+ "'"))
  /\ (is_Some (pl_high payload) -> is_Some (pl_low payload) ->
      is_Some (pl_close payload) -> is_Some (pl_volume payload) ->
      name ∉ hlcv_names ->
      indicator_router payload
      = HTTPException 400 ("Unsupported HLCV indicator '" +:+ name +:+ "'"))
  /\ (pl_high payload = None ->
      is_Some (pl_close payload) -> is_Some (pl_volume payload) ->
      name <> "OBV"%string ->
      indicator_router payload
      = HTTPException 400
          ("Unsupported Close+Volume indicator '" +:+ name +:+ "'")).
Proof.
  intros Hps Hs name.
  unfold indicator_router, indicator_text, required_indicator.
  rewrite Hps, Hs. cbn [mbind outcome_bind]. cbv zeta. fold name. split_and!.
  - intros [h ->] [l ->] [c ->] -> Hnot. cbn [mbind outcome_bind].
    by apply hlc_unsupported.
  - intros [h ->] [l ->] [c ->] [v ->] Hnot. cbn [mbind outcome_bind].
    by apply hlcv_unsupported.
  - intros -> [c ->] [v ->] Hnot. cbn [mbind outcome_bind].
    by apply cv_unsupported.
Qed.

Lemma unsupported_bar_indicator_witness :
  route (payload_of (Some "obv") None (Some [3; 4]) (Some [1; 2])
           (Some [2; 3]) (Some [10; 20]))
  = HTTPException 400 "Unsupported HLCV indicator 'OBV'".
Proof.
  refine (proj1 (proj2
    (@unsupported_bar_indicator decimal_builtins two_pass_pandas warmup_talib
       warmup_bars
       (payload_of (Some "obv") None (Some [3; 4]) (Some [1; 2])
          (Some [2; 3]) (Some [10; 20]))
       "obv" _ _)) _ _ _ _ _); try done.
  apply (bool_decide_unpack _). by vm_compute.
Defined.

(** X12: a payload without ["prices"] that has neither high, low and
    close together, nor close and volume without high, is refused with
    status 400 as malformed when its indicator is absent, a string or a
    false value; when the indicator is a true value that is not a string
    (a non-zero number, [true], a non-empty container) the handler fails
    earlier, with an [AttributeError] that nothing catches. *)
Theorem malformed_payload `{PyBuiltins} `{Pandas} `{TALib} `{TALibBars}
    (payload : Payload) :
  pl_prices payload = None ->
  ~ (is_Some (pl_high payload) /\ is_Some (pl_low payload)
     /\ is_Some (pl_close payload)) ->
  ~ (pl_high payload = None /\ is_Some (pl_close payload)
     /\ is_Some (pl_volume payload)) ->
  indicator_router payload
  = match pl_indicator payload with
    | Some (IndOther true _) => Raise AttributeError
    | _ => HTTPException 400 "Malformed request: missing required fields"
    end.
Proof.
  intros Hps Hhlc Hcv. unfold indicator_router, indicator_text. rewrite Hps.
  destruct (pl_indicator payload) as [[s|[] valid]|];
    cbn [mbind outcome_bind]; cbv zeta; try done;
    destruct (pl_high payload) as [h|], (pl_low payload) as [l|],
      (pl_close payload) as [c|], (pl_volume payload) as [v|];
    try done; first [by destruct Hhlc | by destruct Hcv].
Qed.

Lemma malformed_payload_witness :
  route (payload_of (Some "OBV") None (Some [3; 4]) None (Some [2; 3])
           (Some [10; 20]))
  = HTTPException 400 "Malformed request: missing required fields"
  /\ route (payload_of None None None None None None)
     = HTTPException 400 "Malformed request: missing required fields"
  /\ route {| pl_indicator := Some (IndOther true false);
              pl_prices := None; pl_high := None; pl_low := None;
              pl_close := None; pl_volume := None; pl_params := None |}
     = Raise AttributeError.
Proof.
  split_and!.
  - refine (@malformed_payload decimal_builtins two_pass_pandas warmup_talib
              warmup_bars
              (payload_of (Some "OBV") None (Some [3; 4]) None (Some [2; 3])
                 (Some [10; 20])) _ _ _).
    + done.
    + by intros (_ & [? [=]] & _).
    + by intros ([=] & _).
  - refine (@malformed_payload decimal_builtins two_pass_pandas warmup_talib
              warmup_bars (payload_of None None None None None None) _ _ _).
    + done.
    + by intros ([? [=]] & _).
    + by intros (_ & [? [=]] & _).
  - refine (@malformed_payload decimal_builtins two_pass_pandas warmup_talib
              warmup_bars
              {| pl_indicator := Some (IndOther true false);
                 pl_prices := None; pl_high := None; pl_low := None;
                 pl_close := None; pl_volume := None; pl_params := None |}
              _ _ _).
    + done.
    + by intros ([? [=]] & _).
    + by intros (_ & [? [=]] & _).
Defined.

(** X13: a payload of a recognised shape that carries no indicator is
    not refused with a 400: building the request model raises a
    validation error (a [ValueError]) that the handler does not catch. *)
Theorem missing_indicator_unhandled `{PyBuiltins} `{Pandas} `{TALib}
    `{TALibBars} (payload : Payload) :
  pl_indicator payload = None ->
  (is_Some (pl_prices payload)
   \/ (is_Some (pl_high payload) /\ is_Some (pl_low payload)
       /\ is_Some (pl_close payload))
   \/ (pl_high payload = None /\ is_Some (pl_close payload)
       /\ is_Some (pl_volume payload))) ->
  indicator_router payload = Raise ValueError.
Proof.
  intros Hind Hshape.
  unfold indicator_router, indicator_text, required_indicator.
  rewrite Hind. cbn [mbind outcome_bind]. cbv zeta.
  destruct (pl_prices payload) as [ps|]; [done|].
  destruct Hshape as [[? [=]] | Hshape].
  destruct (pl_high payload) as [h|], (pl_low payload) as [l|],
    (pl_close payload) as [c|], (pl_volume payload) as [v|]; try done;
    destruct Hshape as [(? & ? & ?) | (? & ? & ?)];
    by repeat match goal with H : is_Some None |- _ => destruct H as [? [=]] end.
Qed.

Lemma missing_indicator_unhandled_witness :
  route (payload_of None (Some [1; 2; 3]) None None None None)
  = Raise ValueError.
Proof.
  apply (@missing_indicator_unhandled decimal_builtins two_pass_pandas
           warmup_talib warmup_bars
           (payload_of None (Some [1; 2; 3]) None None None None)).
  - done.
  - left. by eexists.
Defined.

(** ** The hand-written indicators: lengths, lag and degenerate windows *)

Lemma np_assign_from_length (start : Z) (dst src r : list float) :
  0 <= start <= Z.of_nat (length dst) ->
  np_assign_from start dst src = Return r -> length r = length dst.
Proof.
  intros Hs. unfold np_assign_from, slice_index.
  replace (start <? 0) with false by (symmetry; apply Z.ltb_ge; lia).
  rewrite Z.min_l by lia.
  case_bool_decide as Hlen.
  - intros [= <-]. rewrite length_app, length_take, Hlen. lia.
  - destruct src as [|x [|? ?]]; try done.
    intros [= <-]. rewrite length_app, length_take, length_replicate. lia.
Qed.

Section lengths.
Context `{PyBuiltins} `{Pandas}.

Lemma cumulative_return_length ps V :
  cumulative_return ps = Return V -> length V = length ps.
Proof.
  unfold cumulative_return. destruct (_ || _); [done|].
  destruct (1 <? length ps)%nat eqn:Hn.
  - destruct (np_assign_from 1 _ _) as [r| |] eqn:Hr; [|done..].
    cbn [mbind outcome_bind]. intros [= <-].
    apply np_assign_from_length in Hr;
      [|rewrite length_replicate; apply Nat.ltb_lt in Hn; lia].
    rewrite nan_to_none_items_length, length_insert, Hr.
    apply length_replicate.
  - cbn [mbind outcome_bind]. intros [= <-].
    rewrite nan_to_none_items_length, length_insert. apply length_replicate.
Qed.

Lemma volatility_length req ps V :
  volatility req ps = Return V -> length V = length ps.
Proof.
  unfold volatility.
  destruct (int_param req "period" 20) as [period| |]; [|done..].
  destruct (annualize_requested req) as [annualize| |]; [|done..].
  cbn [mbind outcome_bind].
  destruct (Z.ltb_spec (Z.of_nat (length ps)) (period + 1)); [done|].
  destruct (Z.ltb_spec period 0) as [Hneg|Hpos].
  { by rewrite rolling_std_negative. }
  destruct (rolling_std period (simple_returns ps)) as [rv| |]; [|done..].
  cbn [mbind outcome_bind].
  replace (period <? Z.of_nat (length ps)) with true
    by (symmetry; apply Z.ltb_lt; lia).
  destruct (np_assign_from period _ _) as [r| |] eqn:Hr; [|done..].
  cbn [mbind outcome_bind]. intros [= <-].
  apply np_assign_from_length in Hr; [|rewrite length_replicate; lia].
  rewrite nan_to_none_items_length, Hr. apply length_replicate.
Qed.

End lengths.

(** X14: whenever a CURRENT_PRICE (PRICE, CLOSE, LAST), CUMULATIVE_RETURN
    or VOLATILITY request succeeds, for any window and any parameters,
    the response has exactly one entry per input price. *)
Theorem own_indicators_keep_length `{PyBuiltins} `{Pandas} `{TALib}
    (req : CloseOnlyReq) (V : list (option float)) :
  indicator_name (Some (indicator req))
    ∈ ["CURRENT_PRICE"; "PRICE"; "CLOSE"; "LAST"; "CUMULATIVE_RETURN";
       "VOLATILITY"]%string ->
  indicator_router_close_only req = Return V ->
  length V = length (prices req).
Proof.
  intros Hind.
  destruct (decide (length (prices req) < 2)%nat) as [Hgate|Hgate].
  { by rewrite close_only_gate. }
  apply list_elem_of_In in Hind. cbn [In] in Hind.
  destruct Hind as [Hi|[Hi|[Hi|[Hi|[Hi|[Hi|[]]]]]]]; symmetry in Hi.
  1-4: rewrite close_only_current_price
         by (lia || (rewrite Hi; apply list_elem_of_In; cbn; tauto));
       intros [= <-]; apply nan_to_none_items_length.
  - rewrite close_only_cumulative_return by (done || lia).
    apply cumulative_return_length.
  - rewrite close_only_volatility by (done || lia).
    apply volatility_length.
Qed.

Lemma own_indicators_keep_length_witness :
  exists V,
    serve (request "volatility" [1; 2; 3; 4] [("period", PInt 0)]) = Return V
    /\ length V = 4%nat.
Proof.
  eexists. split; [by vm_compute|].
  refine (@own_indicators_keep_length decimal_builtins two_pass_pandas
            warmup_talib
            (request "volatility" [1; 2; 3; 4] [("period", PInt 0)]) _ _ _).
  - apply (bool_decide_unpack _). by vm_compute.
  - by vm_compute.
Defined.

Section cumulative_lag.

Lemma spec_cumulative_return_prefix ps ps' (i j : nat) :
  length ps = length ps' ->
  (1 <= i)%nat ->
  (forall k : nat, k <> i -> ps !! k = ps' !! k) ->
  (j <= i)%nat ->
  spec_cumulative_return ps !! j = spec_cumulative_return ps' !! j.
Proof.
  intros Hlen Hi Hagree Hj. unfold spec_cumulative_return.
  rewrite !list_lookup_fmap, <- Hlen.
  destruct (seq 0 (length ps) !! j) as [j'|] eqn:Hseq; [|done].
  apply lookup_seq in Hseq as [-> _]. cbn [fmap option_fmap option_map Nat.add].
  destruct j as [|k]; [done|].
  rewrite !list_lookup_total_alt.
  by rewrite (Hagree k), (Hagree 0%nat) by lia.
Qed.

Lemma cumulative_return_prefix ps ps' (i : nat) :
  length ps = length ps' ->
  (1 <= i)%nat ->
  (forall k : nat, k <> i -> ps !! k = ps' !! k) ->
  agree_upto i (cumulative_return ps) (cumulative_return ps').
Proof.
  intros Hlen Hi Hagree.
  destruct (ps !! 0%nat) as [p0|] eqn:Hp0.
  - assert (Hp0' : ps' !! 0%nat = Some p0) by (by rewrite <- Hagree by lia).
    destruct (F64.eqb p0 F64.zero) eqn:Hz.
    + by rewrite !(cumulative_return_zero _ p0).
    + rewrite !(cumulative_return_nonzero _ p0) by done.
      intros j Hj. by apply (spec_cumulative_return_prefix _ _ i).
  - apply lookup_ge_None_1 in Hp0.
    destruct ps; [|cbn in Hp0; lia]. by destruct ps'.
Qed.

End cumulative_lag.

(** X15: CUMULATIVE_RETURN does not look ahead: two requests whose price
    arrays have the same length and differ at one position [i >= 1] only
    receive the same failure, or responses that agree at every index
    [j <= i]. *)
Theorem cumulative_return_no_lookahead `{PyBuiltins} `{Pandas} `{TALib}
    (ind : string) (kv : option (gmap string pval)) (P P' : list float)
    (i : nat) :
  indicator_name (Some ind) = "CUMULATIVE_RETURN"%string ->
  length P = length P' ->
  (1 <= i)%nat ->
  (forall k : nat, k <> i -> P !! k = P' !! k) ->
  agree_upto i
    (indicator_router_close_only {| indicator := ind; prices := P; params := kv |})
    (indicator_router_close_only {| indicator := ind; prices := P'; params := kv |}).
Proof.
  intros Hind Hlen Hi Hagree.
  destruct (decide (length P < 2)%nat) as [Hgate|Hgate].
  - rewrite !close_only_gate by (cbn [prices]; lia). done.
  - rewrite !close_only_cumulative_return by (done || cbn [prices]; lia).
    by apply cumulative_return_prefix.
Qed.

Lemma cumulative_return_no_lookahead_witness :
  agree_upto 2
    (serve (request "CUMULATIVE_RETURN" [2; 3; 4; 5] []))
    (serve (request "CUMULATIVE_RETURN" [2; 3; 50; 5] [])).
Proof.
  refine (@cumulative_return_no_lookahead decimal_builtins two_pass_pandas
            warmup_talib "CUMULATIVE_RETURN" (Some (list_to_map []))
            (floats [2; 3; 4; 5]) (floats [2; 3; 50; 5]) 2%nat _ _ _ _).
  - by vm_compute.
  - done.
  - lia.
  - intros k Hk. by do 4 (destruct k as [|k]; [done|]).
Defined.

Section degenerate_windows.
Context `{PyBuiltins} `{Pandas}.

Lemma volatility_window_negative req ps (period : Z) annualize :
  int_param req "period" 20 = Return period ->
  annualize_requested req = Return annualize ->
  period < 0 ->
  volatility req ps = Raise ValueError.
Proof.
  intros Hp Ha Hneg. unfold volatility. rewrite Hp, Ha. cbn [mbind outcome_bind].
  replace (Z.of_nat (length ps) <? period + 1) with false
    by (symmetry; apply Z.ltb_ge; lia).
  by rewrite rolling_std_negative.
Qed.

Lemma volatility_window_zero_two req (p q : float) annualize :
  int_param req "period" 20 = Return 0 ->
  annualize_requested req = Return annualize ->
  volatility req [p; q] = Raise ValueError.
Proof.
  intros Hp Ha. unfold volatility. rewrite Hp, Ha. cbn [mbind outcome_bind].
  by destruct annualize.
Qed.

End degenerate_windows.

(** X16: a VOLATILITY request on two prices or more whose window is
    negative, or one, or zero with exactly two prices, is not refused
    with a 400: a [ValueError] escapes the handler (from the rolling
    window, or from the assignment of a slice of the wrong length). *)
Theorem volatility_degenerate_window_raises `{PyBuiltins} `{Pandas} `{TALib}
    (req : CloseOnlyReq) (period : Z) (annualize : bool) :
  indicator_name (Some (indicator req)) = "VOLATILITY"%string ->
  (2 <= length (prices req))%nat ->
  int_param req "period" 20 = Return period ->
  annualize_requested req = Return annualize ->
  period < 0 \/ period = 1 \/ (period = 0 /\ length (prices req) = 2%nat) ->
  indicator_router_close_only req = Raise ValueError.
Proof.
  intros Hind Hn Hp Ha Hcase.
  rewrite close_only_volatility by done.
  destruct Hcase as [Hneg | [-> | [-> Htwo]]].
  - by apply (volatility_window_negative _ _ period annualize).
  - by apply (volatility_window_one _ _ annualize).
  - destruct (prices req) as [|p [|q [|? ?]]]; try done.
    by apply (volatility_window_zero_two _ _ _ annualize).
Qed.

Lemma volatility_degenerate_window_raises_witness :
  serve (request "VOLATILITY" [1; 2; 3; 4] [("period", PInt (-5))])
  = Raise ValueError
  /\ serve (request "VOLATILITY" [1; 2; 3; 4] [("period", PStr "1")])
     = Raise ValueError.
Proof.
  split.
  - apply (@volatility_degenerate_window_raises decimal_builtins
             two_pass_pandas warmup_talib
             (request "VOLATILITY" [1; 2; 3; 4] [("period", PInt (-5))])
             (-5) true); try by vm_compute.
    + cbn. lia.
    + left. lia.
  - apply (@volatility_degenerate_window_raises decimal_builtins
             two_pass_pandas warmup_talib
             (request "VOLATILITY" [1; 2; 3; 4] [("period", PStr "1")])
             1 true); try by vm_compute.
    + cbn. lia.
    + right. by left.
Defined.

(** X17: an RSI request with two prices or more and more periods than
    prices is refused with status 400 before TA-Lib is called; otherwise
    the response is TA-Lib's output, sanitized, or the exception TA-Lib
    raised. *)
Theorem rsi_length_gate `{PyBuiltins} `{Pandas} `{TALib}
    (req : CloseOnlyReq) (period : Z) :
  indicator_name (Some (indicator req)) = "RSI"%string ->
  (2 <= length (prices req))%nat ->
  int_param req "period" 14 = Return period ->
  (Z.of_nat (length (prices req)) < period ->
   indicator_router_close_only req
   = HTTPException 400 "prices length must be >= period")
  /\ (period <= Z.of_nat (length (prices req)) ->
      indicator_router_close_only req
      = out ← talib_RSI (prices req) period;
        Return (_nan_to_none (items out))).
Proof.
  intros Hind Hn Hp. unfold indicator_router_close_only, _as_nd.
  replace (length (prices req) <? 2)%nat with false
    by (symmetry; by apply Nat.ltb_ge).
  cbv zeta. rewrite Hind. decide_names. rewrite !stmt_seq_skip.
  change (py_if true ?s) with s. rewrite Hp. cbn [mbind outcome_bind].
  split; intros Hlen.
  - by replace (Z.of_nat (length (prices req)) <? period) with true
      by (symmetry; by apply Z.ltb_lt).
  - replace (Z.of_nat (length (prices req)) <? period) with false
      by (symmetry; by apply Z.ltb_ge).
    by destruct (talib_RSI (prices req) period).
Qed.

Lemma rsi_length_gate_witness :
  serve (request "rsi" [1; 2; 3] [])
  = HTTPException 400 "prices length must be >= period"
  /\ serve (request "rsi" [1; 2; 3] [("period", PInt 2)])
     = Return [None; None; None].
Proof.
  split.
  - apply (@rsi_length_gate decimal_builtins two_pass_pandas warmup_talib
             (request "rsi" [1; 2; 3] []) 14); try by vm_compute.
    cbn. lia.
  - refine (proj2 (@rsi_length_gate decimal_builtins two_pass_pandas
                     warmup_talib
                     (request "rsi" [1; 2; 3] [("period", PInt 2)]) 2 _ _ _) _);
      try by vm_compute.
    cbn. lia.
Defined.

(** ** The sample size is reported exactly *)

Section exact_integers.

Lemma Zpos_iter_xO m k : Zpos (Pos.iter xO m k) = Zpos m * 2 ^ Zpos k.
Proof.
  induction k as [|k IH] using Pos.peano_ind.
  - cbn [Pos.iter]. lia.
  - rewrite Pos.iter_succ, Pos2Z.inj_xO, IH, Pos2Z.inj_succ.
    rewrite Z.pow_succ_r by lia. lia.
Qed.

(** A mantissa below 2^53 is stored shifted, with the opposite
    exponent. *)
Lemma binary_round_small_exact s m :
  Zpos m < 2 ^ 53 ->
  binary_round F64.prec F64.emax s m 0 = S754_finite s m 0
  \/ exists k, binary_round F64.prec F64.emax s m 0
               = S754_finite s (Pos.iter xO m k) (Zneg k).
Proof.
  intros Hm. pose proof (digits2_pos_bound m 53 ltac:(lia) Hm) as Hd.
  unfold F64.prec, F64.emax, binary_round, shl_align, fexp, emin.
  set (d := Zpos (digits2_pos m)) in *.
  replace (Z.max (d + 0 - 53) (3 - 1024 - 53) - 0) with (d - 53) by lia.
  replace (Z.max (d + 0 - 53) (3 - 1024 - 53)) with (d - 53) by lia.
  destruct (d - 53) as [|p|p] eqn:Hp; try lia.
  - left. unfold binary_round_aux, shr_fexp, fexp, emin.
    cbn [Zdigits2 shr_record_of_loc]. fold d.
    replace (Z.max (d + 0 - 53) (3 - 1024 - 53) - 0) with 0 by lia.
    cbn [shr shr_m loc_of_shr_record round_nearest_even Zdigits2]. fold d.
    replace (Z.max (d + 0 - 53) (3 - 1024 - 53) - 0) with 0 by lia.
    done.
  - right. exists p. unfold binary_round_aux, shr_fexp, fexp, emin.
    cbn [Zdigits2 shr_record_of_loc].
    rewrite digits2_pos_iter_xO. fold d.
    replace (Z.max (Zpos (digits2_pos m + p) + Zneg p - 53) (3 - 1024 - 53)
             - Zneg p) with 0 by lia.
    cbn [shr shr_m loc_of_shr_record round_nearest_even Zdigits2].
    rewrite digits2_pos_iter_xO.
    replace (Z.max (Zpos (digits2_pos m + p) + Zneg p - 53) (3 - 1024 - 53)
             - Zneg p) with 0 by lia.
    cbn [shr shr_m].
    by replace (Zneg p <=? 1024 - 53) with true
      by (symmetry; apply Z.leb_le; lia).
Qed.

(** Converting such an integer and truncating gives it back. *)
Lemma trunc_of_Z_small z : 0 <= z < 2 ^ 53 -> F64.trunc (F64.of_Z z) = z.
Proof.
  intros Hz. unfold F64.of_Z, binary_normalize.
  destruct z as [|m|m]; [done| |lia].
  destruct (binary_round_small_exact false m) as [-> | [k ->]]; [lia| |].
  - cbn [F64.trunc]. apply Z.shiftl_0_r.
  - cbn [F64.trunc]. rewrite Zpos_iter_xO, Z.shiftr_div_pow2 by lia.
    apply Z.div_mul. apply Z.pow_nonzero; lia.
Qed.

End exact_integers.

(** X18: the report's [qs_sample_size] is present whatever the
    statistics do, and for a series of fewer than 2^53 observations it
    is a finite float whose integer value is exactly the number of
    observations. *)
Theorem sample_size_exact `{QuantStats} (series calmar_series : Series)
    (periods_per_year : Z) (conf : float) :
  Z.of_nat (length (values series)) < 2 ^ 53 ->
  exists x,
    quantstats_battery series calmar_series periods_per_year conf
      !! "qs_sample_size"%string = Some (Some x)
    /\ F64.isfinite x = true
    /\ F64.trunc x = Z.of_nat (length (values series)).
Proof.
  intros Hsize. eexists. split_and!.
  - battery_lookup. apply lookup_singleton_eq.
  - apply of_Z_small_finite. lia.
  - apply trunc_of_Z_small. lia.
Qed.

Lemma sample_size_exact_witness :
  exists x,
    @quantstats_battery sample_quantstats
      {| values := floats [1; 2; 3]; freq := "D" |}
      {| values := floats [1; 2; 3]; freq := "D" |} 252 F64.one
      !! "qs_sample_size"%string = Some (Some x)
    /\ F64.isfinite x = true
    /\ F64.trunc x = 3.
Proof.
  refine (@sample_size_exact sample_quantstats
            {| values := floats [1; 2; 3]; freq := "D" |}
            {| values := floats [1; 2; 3]; freq := "D" |} 252 F64.one _).
  by vm_compute.
Defined.

(** X19: a statistic that returns a whole number below 2^53, as a
    Python integer, a NumPy integer or the first element of an array, is
    reported as the float of exactly that value, never as null. *)
Theorem captured_integer_exact (z : Z) (fn : outcome pyvalue)
    (rest : list pyvalue) :
  0 <= z < 2 ^ 53 ->
  fn ∈ [Return (PyInt z); Return (NpInteger z);
        Return (PySequence (PyInt z :: rest));
        Return (PySequence (NpInteger z :: rest))] ->
  exists x, captured fn = Some x /\ F64.isfinite x = true /\ F64.trunc x = z.
Proof.
  intros Hz Hfn. exists (F64.of_Z z).
  pose proof (of_Z_small_finite z Hz) as Hfin.
  split_and!; [|done|by apply trunc_of_Z_small].
  apply list_elem_of_In in Hfn. cbn [In] in Hfn.
  destruct Hfn as [<-|[<-|[<-|[<-|[]]]]];
    unfold captured, capture_try, float_of_int; cbn; rewrite ?Hfin; cbn;
    by rewrite ?Hfin.
Qed.

Lemma captured_integer_exact_witness :
  exists x,
    captured (Return (PySequence [NpInteger 42; PyObject])) = Some x
    /\ F64.isfinite x = true /\ F64.trunc x = 42.
Proof.
  apply (captured_integer_exact 42 _ [PyObject]).
  - lia.
  - apply list_elem_of_In. cbn. tauto.
Defined.

(** X20: the shortest input VOLATILITY accepts gives no value: with a
    window [period >= 2] and exactly [period + 1] prices the response is
    [period + 1] nulls, so a first value needs [period + 2] prices. *)
Theorem volatility_minimum_input_all_null `{PyBuiltins} `{Pandas} `{TALib}
    (req : CloseOnlyReq) (period : Z) (annualize : bool) :
  indicator_name (Some (indicator req)) = "VOLATILITY"%string ->
  int_param req "period" 20 = Return period ->
  annualize_requested req = Return annualize ->
  2 <= period ->
  Z.of_nat (length (prices req)) = period + 1 ->
  indicator_router_close_only req
  = Return (replicate (length (prices req)) None).
Proof.
  intros Hind Hp Ha Hper Hn.
  rewrite close_only_volatility by (done || lia).
  rewrite (volatility_lagged _ _ period annualize) by (done || lia).
  f_equal. unfold spec_volatility. apply list_eq. intros i.
  rewrite list_lookup_fmap.
  destruct (decide (i < length (prices req))%nat) as [Hi|Hi].
  - rewrite lookup_seq_lt, lookup_replicate_2 by done.
    cbn [fmap option_fmap option_map Nat.add].
    by replace (i <? Z.to_nat period + 1)%nat with true
      by (symmetry; apply Nat.ltb_lt; lia).
  - rewrite lookup_seq_ge by lia. symmetry.
    apply lookup_replicate_None. lia.
Qed.

Lemma volatility_minimum_input_all_null_witness :
  serve (request "VOLATILITY" [1; 2; 4; 8] [("period", PInt 3)])
  = Return [None; None; None; None].
Proof.
  apply (@volatility_minimum_input_all_null decimal_builtins two_pass_pandas
           warmup_talib
           (request "VOLATILITY" [1; 2; 4; 8] [("period", PInt 3)]) 3 true);
    by vm_compute.
Defined.
